(** * DataPipeline: the spreadsheet pipeline of [script_manager.py] and [app.py]

    A shallow embedding of the ScriptManager class (path state, step
    registry, runner, the three transfer operations) and of the upload
    handler, over a small model of the file system and of the workbook
    objects the code manipulates through openpyxl. *)

From Stdlib Require Import String Ascii List Arith Lia.
From stdpp Require Import gmap strings list fin_maps sorting pretty.

Local Open Scope string_scope.

(** ** Exceptions and the state-and-exception monad *)

Inductive exn_kind :=
  | ValueError | TypeError | AttributeError | IndexError
  | FileNotFoundError | PermissionError | SameFileError
  | InvalidFileException | BadZipFile.

(** A raised exception; [exn_msg] is what [str(e)] gives. *)
Record exn := Exn { exn_type : exn_kind; exn_msg : string }.

Inductive result (A : Type) :=
  | Ok (a : A)
  | Raise (e : exn).
Arguments Ok {A} a.
Arguments Raise {A} e.

(** Python statements over a mutable state [S]: the state after the
    statement, and its value or the exception it raised. State changes made
    before a raise persist. *)
Definition M (S A : Type) : Type := S → S * result A.

Global Instance M_ret {S} : MRet (M S) := λ A a s, (s, Ok a).
Global Instance M_bind {S} : MBind (M S) := λ A B k m s,
  match m s with
  | (s', Ok a) => k a s'
  | (s', Raise e) => (s', Raise e)
  end.

Definition raise {S A} (e : exn) : M S A := λ s, (s, Raise e).
(** [try: body  except Exception as e: handler(e)] *)
Definition try_except {S A} (body : M S A) (handler : exn → M S A) : M S A :=
  λ s, match body s with
       | (s', Ok a) => (s', Ok a)
       | (s', Raise e) => handler e s'
       end.
Definition gets {S A} (f : S → A) : M S A := λ s, (s, Ok (f s)).
Definition modify {S} (f : S → S) : M S unit := λ s, (f s, Ok tt).

(** ** Paths: [os.path.join] and [os.path.basename] on POSIX *)

Definition is_slash (c : ascii) : bool := Ascii.eqb c "/"%char.

Fixpoint has_slash (p : string) : bool :=
  match p with
  | EmptyString => false
  | String c rest => is_slash c || has_slash rest
  end.

Fixpoint ends_with_slash (p : string) : bool :=
  match p with
  | EmptyString => false
  | String c EmptyString => is_slash c
  | String _ rest => ends_with_slash rest
  end.

Definition starts_with_slash (p : string) : bool :=
  match p with
  | String c _ => is_slash c
  | EmptyString => false
  end.

Definition is_dot (c : ascii) : bool := Ascii.eqb c "."%char.

Fixpoint has_dot (s : string) : bool :=
  match s with
  | EmptyString => false
  | String c rest => is_dot c || has_dot rest
  end.

(** [posixpath.join(a, b)] *)
Definition path_join (a b : string) : string :=
  if starts_with_slash b then b
  else if String.eqb a "" || ends_with_slash a then a +:+ b
  else a +:+ "/" +:+ b.

(** [posixpath.basename(p)]: what follows the last slash. *)
Fixpoint basename (p : string) : string :=
  match p with
  | EmptyString => EmptyString
  | String c rest =>
      if has_slash rest then basename rest
      else if is_slash c then rest
      else p
  end.

(** [repr(p)] of a string of ASCII characters, the way a path shows in the
    message of an [OSError]: between apostrophes, or between quotation marks
    when it holds an apostrophe and no quotation mark; the backslash and the
    quote escaped, a control character as its escape. *)
Definition quotation_mark : ascii := ascii_of_nat 34.

Definition hex_digit (n : nat) : ascii :=
  if (n <? 10)%nat then ascii_of_nat (48 + n) else ascii_of_nat (87 + n).

Definition repr_char (quote c : ascii) : string :=
  let n := nat_of_ascii c in
  if Ascii.eqb c quote || Ascii.eqb c "\"%char then String "\"%char (String c EmptyString)
  else if (n =? 9)%nat then "\t"
  else if (n =? 10)%nat then "\n"
  else if (n =? 13)%nat then "\r"
  else if ((n <? 32) || (n =? 127))%nat then
    String "\"%char (String "x"%char
      (String (hex_digit (n / 16)) (String (hex_digit (n mod 16)) EmptyString)))
  else String c EmptyString.

Fixpoint has_char (c : ascii) (s : string) : bool :=
  match s with
  | EmptyString => false
  | String c' rest => Ascii.eqb c c' || has_char c rest
  end.

Fixpoint repr_chars (quote : ascii) (s : string) : string :=
  match s with
  | EmptyString => String quote EmptyString
  | String c rest => repr_char quote c +:+ repr_chars quote rest
  end.

Definition py_repr (s : string) : string :=
  let quote := if has_char "'"%char s && negb (has_char quotation_mark s)
               then quotation_mark else "'"%char in
  String quote (repr_chars quote s).

(** [config.py] *)
Definition UPLOAD_FOLDER : string := "uploads".
Definition OUTPUT_FOLDER : string := "output".
Definition BACKUP_FOLDER : string := "backups".

(** ** Dates and [strftime] *)

Record datetime := DateTime {
  year : nat; month : nat; day : nat;
  hour : nat; minute : nat; second : nat
}.

Definition digit (n : nat) : ascii := ascii_of_nat (48 + n mod 10).

Definition two_digits (n : nat) : string :=
  String (digit (n / 10)) (String (digit n) EmptyString).

Definition four_digits (n : nat) : string :=
  String (digit (n / 1000)) (String (digit (n / 100))
    (String (digit (n / 10)) (String (digit n) EmptyString))).

(** [%Y] as the C library prints it: the year in decimal, not padded. The
    years of a [datetime] lie in 1..9999, so four digits from 1000 on and
    fewer before. *)
Definition strftime_Y (n : nat) : string :=
  if (1000 <=? n)%nat then four_digits n
  else if (100 <=? n)%nat then
    String (digit (n / 100)) (String (digit (n / 10)) (String (digit n) EmptyString))
  else if (10 <=? n)%nat then two_digits n
  else String (digit n) EmptyString.

(** [value.strftime('%d/%m/%Y')] *)
Definition strftime_dmy (d : datetime) : string :=
  two_digits (day d) +:+ "/" +:+ two_digits (month d) +:+ "/" +:+ strftime_Y (year d).

(** [datetime.now().strftime('%Y%m%d_%H%M%S')] *)
Definition strftime_stamp (d : datetime) : string :=
  strftime_Y (year d) +:+ two_digits (month d) +:+ two_digits (day d) +:+ "_"
  +:+ two_digits (hour d) +:+ two_digits (minute d) +:+ two_digits (second d).

(** ** Cell values and worksheets (the openpyxl objects the code handles) *)

(** The other values of the [datetime] module a cell can hold: a date
    without a time, a time of day, a duration. None of them is an instance of
    the class [datetime]. *)
Record date := Date { date_year : nat; date_month : nat; date_day : nat }.
Record time := Time { time_hour : nat; time_minute : nat; time_second : nat }.
Record timedelta := Timedelta { td_days : Z; td_seconds : nat }.

(** What [cell.value] can be. [VFloat] carries the 64 bits of the float. *)
Inductive value :=
  | VNone
  | VBool (b : bool)
  | VInt (z : Z)
  | VFloat (bits : Z)
  | VStr (s : string)
  | VDateTime (d : datetime)
  | VDate (d : date)
  | VTime (t : time)
  | VTimedelta (t : timedelta).

Global Instance datetime_eq_dec : EqDecision datetime.
Proof. solve_decision. Defined.
Global Instance date_eq_dec : EqDecision date.
Proof. solve_decision. Defined.
Global Instance time_eq_dec : EqDecision time.
Proof. solve_decision. Defined.
Global Instance timedelta_eq_dec : EqDecision timedelta.
Proof. solve_decision. Defined.
Global Instance value_eq_dec : EqDecision value.
Proof. solve_decision. Defined.

Definition is_none (v : value) : bool :=
  match v with VNone => true | _ => false end.

(** [value.strftime('%d/%m/%Y') if isinstance(value, datetime) else value] *)
Definition format_value (v : value) : value :=
  match v with
  | VDateTime d => VStr (strftime_dmy d)
  | _ => v
  end.

(** A worksheet: its title, the cells that exist keyed by (row, column),
    both counted from 1, and the row counter [append] continues from. A cell
    can exist and hold [None]; [_styled] tells of such a cell whether it
    carries a style (a border, a fill, a number format), which is what makes
    [save] keep it. Of a cell that holds a value it says nothing. *)
Record Worksheet := {
  title : string;
  _cells : gmap (nat * nat) value;
  _styled : gset (nat * nat);
  _current_row : nat
}.

Definition cell_value (ws : Worksheet) (row column : nat) : value :=
  default VNone (_cells ws !! (row, column)).

(** [ws.max_row] and [ws.max_column]: 1 on a sheet without cells. *)
Definition max_row (ws : Worksheet) : nat :=
  if decide (_cells ws = ∅) then 1
  else max_list ((λ kv : nat * nat * value, kv.1.1) <$> map_to_list (_cells ws)).

Definition max_column (ws : Worksheet) : nat :=
  if decide (_cells ws = ∅) then 1
  else max_list ((λ kv : nat * nat * value, kv.1.2) <$> map_to_list (_cells ws)).

(** [ws.cell(row, column, value)]: the cell is created empty when it does
    not exist, which moves the row counter; a value that is [None] is not
    assigned, so the cell keeps what it held. *)
Definition cell (ws : Worksheet) (row column : nat) (v : value) : Worksheet :=
  let created :=
    match _cells ws !! (row, column) with
    | Some _ => ws
    | None => {| title := title ws;
                 _cells := <[(row, column) := VNone]> (_cells ws);
                 _styled := _styled ws;
                 _current_row := Nat.max row (_current_row ws) |}
    end in
  if is_none v then created
  else {| title := title created;
          _cells := <[(row, column) := v]> (_cells created);
          _styled := _styled created;
          _current_row := _current_row created |}.

(** One row as [iter_rows(values_only=True)] yields it: the values of
    columns 1..max_column. *)
Definition row_values (ws : Worksheet) (row : nat) : list value :=
  (λ c, cell_value ws row c) <$> seq 1 (max_column ws).

(** [ws.iter_rows(min_row=r, values_only=True)]: rows r..max_row. *)
Definition iter_rows_from (min_row : nat) (ws : Worksheet) : list (list value) :=
  row_values ws <$> seq min_row (S (max_row ws) - min_row).

(** [ws.iter_rows(values_only=True)]: nothing on a sheet that never held a
    row, rows 1..max_row otherwise. *)
Definition iter_rows (ws : Worksheet) : list (list value) :=
  if decide (_current_row ws = 0) then [] else iter_rows_from 1 ws.

(** [ws.append(row)]: the row goes below [_current_row]; every item makes a
    cell, [None] included. *)
Definition append (ws : Worksheet) (row : list value) : Worksheet :=
  let row_idx := S (_current_row ws) in
  {| title := title ws;
     _cells := foldl (λ m cv, <[(row_idx, cv.1) := cv.2]> m) (_cells ws)
                 (zip (seq 1 (length row)) row);
     _styled := _styled ws;
     _current_row := row_idx |}.

(** [enumerate(row, start)] *)
Definition enumerate {A} (start : nat) (l : list A) : list (nat * A) :=
  zip (seq start (length l)) l.

(** *** Sheet titles: [avoid_duplicate_name] of openpyxl *)

Definition lower_char (c : ascii) : ascii :=
  let n := nat_of_ascii c in
  if ((65 <=? n) && (n <=? 90))%nat then ascii_of_nat (n + 32) else c.

Fixpoint lower (s : string) : string :=
  match s with
  | EmptyString => EmptyString
  | String c rest => String (lower_char c) (lower rest)
  end.

Definition is_digit (c : ascii) : bool :=
  let n := nat_of_ascii c in ((48 <=? n) && (n <=? 57))%nat.

(** [pat] matched without regard to case at the head of [s]: the rest. *)
Fixpoint match_prefix_ci (pat s : string) : option string :=
  match pat, s with
  | EmptyString, _ => Some s
  | String p pat', String c s' =>
      if Ascii.eqb (lower_char p) (lower_char c) then match_prefix_ci pat' s' else None
  | String _ _, EmptyString => None
  end.

(** The greedy [\d*]: the digits at the head of [s], and the rest. *)
Fixpoint take_digits (s : string) : string * string :=
  match s with
  | String c rest =>
      if is_digit c then let (d, r) := take_digits rest in (String c d, r)
      else (EmptyString, s)
  | EmptyString => (EmptyString, EmptyString)
  end.

Definition skip_comma (s : string) : string :=
  match s with
  | String c rest => if Ascii.eqb c ","%char then rest else s
  | EmptyString => s
  end.

(** The pattern [avoid_duplicate_name] compiles: [value] taken literally,
    then a group of digits, then an optional comma, case ignored. [findall]
    scans [names] from the left without overlap and gives the digit group of
    every match. [value] is not empty, so a match consumes a character. *)
Fixpoint findall_counts (fuel : nat) (value names : string) : list string :=
  match fuel with
  | O => []
  | S fuel' =>
      match match_prefix_ci value names with
      | Some rest =>
          let (count, rest') := take_digits rest in
          count :: findall_counts fuel' value (skip_comma rest')
      | None =>
          match names with
          | EmptyString => []
          | String _ names' => findall_counts fuel' value names'
          end
      end
  end.

(** [int(idx)] on a string of digits *)
Definition int_of_digits (s : string) : nat :=
  foldl (λ acc c, 10 * acc + (nat_of_ascii c - 48)) 0 (list_ascii_of_string s).

Fixpoint join_comma (names : list string) : string :=
  match names with
  | [] => EmptyString
  | [n] => n
  | n :: rest => n +:+ "," +:+ join_comma rest
  end.

Definition avoid_duplicate_name (names : list string) (value : string) : string :=
  if existsb (λ n, String.eqb (lower n) (lower value)) names then
    let joined := join_comma names in
    let matches := findall_counts (S (String.length joined)) value joined in
    match matches with
    | [] => value
    | _ =>
        let counts := int_of_digits <$> filter (λ idx, idx ≠ EmptyString) matches in
        value +:+ pretty (S (max_list counts))
    end
  else value.

(** *** Workbooks *)

Record Workbook := {
  _sheets : list Worksheet;
  _active_sheet_index : nat
}.

Definition sheetnames (wb : Workbook) : list string := title <$> _sheets wb.

(** [wb.active]: [None] when the index points at no sheet. *)
Definition active (wb : Workbook) : option Worksheet :=
  _sheets wb !! _active_sheet_index wb.

(** The characters a sheet title must not hold. *)
Definition invalid_title_char (c : ascii) : bool :=
  existsb (Ascii.eqb c) (list_ascii_of_string "\*?:/[]").

(** [wb.create_sheet(title=t)]: a new empty sheet; a title already in use
    is made distinct by a number. The sheet object is put at the end of the
    workbook ([_add_sheet]) and returned; the rows appended to it afterwards
    are rows of the workbook's sheet. *)
Definition create_sheet (wb : Workbook) (t : string) : result Worksheet :=
  if String.eqb t "" then
    Raise (Exn ValueError "Title must have at least one character")
  else if existsb invalid_title_char (list_ascii_of_string t) then
    Raise (Exn ValueError "Invalid character found in sheet title")
  else
    Ok {| title := avoid_duplicate_name (sheetnames wb) t;
          _cells := ∅; _styled := ∅; _current_row := 0 |}.

Definition _add_sheet (wb : Workbook) (ws : Worksheet) : Workbook :=
  {| _sheets := _sheets wb ++ [ws];
     _active_sheet_index := _active_sheet_index wb |}.

(** What reading a sheet from a file leaves in [_current_row]. *)
Definition bind_cells (ws : Worksheet) : Worksheet :=
  {| title := title ws; _cells := _cells ws; _styled := _styled ws;
     _current_row := if decide (_cells ws = ∅) then 0 else max_row ws |}.

(** ** What a file keeps of a workbook *)

(** What [load_workbook] reads from a cell that [save] wrote with a value
    other than [None]: the value as the library puts it into the file and
    takes it out again (a number goes through its decimal text, a date
    through its serial number). This is the library's doing, not the code's;
    the operations are stated over it, and their properties hold whatever the
    function is. *)
Class Openpyxl := written : value → value.

Definition as_written `{Openpyxl} (v : value) : value :=
  if is_none v then VNone else written v.

(** [save] leaves an empty cell out of the file unless the cell has a
    style. *)
Definition stored_cell `{Openpyxl} (ws : Worksheet) (k : nat * nat) (v : value)
  : option value :=
  if is_none v then (if bool_decide (k ∈ _styled ws) then Some VNone else None)
  else Some (written v).

Definition stored_sheet `{Openpyxl} (ws : Worksheet) : Worksheet :=
  {| title := title ws;
     _cells := map_imap (stored_cell ws) (_cells ws);
     _styled := _styled ws;
     _current_row := 0 |}.

(** The workbook a file holds once [wb] is saved to it: the sheets in
    their order under their titles, the active one marked. *)
Definition stored `{Openpyxl} (wb : Workbook) : Workbook :=
  {| _sheets := stored_sheet <$> _sheets wb;
     _active_sheet_index := _active_sheet_index wb |}.

(** *** Numbers

    [save] writes a number as the text ["%.16g" % value], 16 significant
    digits, an [int] being made a [float] on the way; [load_workbook] reads
    the text as an [int] when it shows neither a point nor an exponent and as
    a [float] otherwise. The functions below compute this on exact
    fractions [num / den]. *)

(** [num / den] rounded to the nearest integer, a tie to the even one. *)
Definition round_half_even (num den : Z) : Z :=
  let q := (num / den)%Z in
  let r := (num mod den)%Z in
  if (2 * r <? den)%Z then q
  else if (den <? 2 * r)%Z then (q + 1)%Z
  else if Z.even q then q else (q + 1)%Z.

(** The number of decimal digits of [n], less one, for [n] from 1 on. *)
Fixpoint log10_floor (fuel : nat) (n : Z) : Z :=
  match fuel with
  | O => 0%Z
  | S fuel' => if (n <? 10)%Z then 0%Z else (1 + log10_floor fuel' (n / 10))%Z
  end.

Definition ilog10 (n : Z) : Z := log10_floor (S (Z.to_nat (Z.log2 n))) n.

(** The decimal exponent [X] of a positive fraction:
    [10 ^ X ≤ num / den < 10 ^ (X + 1)]. *)
Definition decimal_exponent (num den : Z) : Z :=
  if (den <=? num)%Z then ilog10 (num / den)
  else
    let k := ilog10 (den / num) in
    if (den <=? num * 10 ^ k)%Z then (- k)%Z else (- (k + 1))%Z.

(** A positive fraction rounded to 16 significant digits: the digits as one
    integer [N] of 16 digits and the decimal exponent [X] of the rounded
    number, which is [N * 10 ^ (X - 15)]. *)
Definition significant_16 (num den : Z) : Z * Z :=
  let X := decimal_exponent num den in
  let N := if (X <=? 15)%Z then round_half_even (num * 10 ^ (15 - X)) den
           else round_half_even num (den * 10 ^ (X - 15)) in
  if (N =? 10 ^ 16)%Z then ((10 ^ 15)%Z, (X + 1)%Z) else (N, X).

(** The binary exponent of a positive fraction:
    [2 ^ e ≤ num / den < 2 ^ (e + 1)]. *)
Definition binary_exponent (num den : Z) : Z :=
  let d := (Z.log2 num - Z.log2 den)%Z in
  if (0 <=? d)%Z then (if (den * 2 ^ d <=? num)%Z then d else (d - 1)%Z)
  else (if (den <=? num * 2 ^ (- d))%Z then d else (d - 1)%Z).

(** The bits of the float nearest to a positive fraction, a tie to the even
    one; infinity beyond the largest float. *)
Definition nearest_float (num den : Z) : Z :=
  let e := Z.max (binary_exponent num den - 52) (-1074) in
  let m := if (0 <=? e)%Z then round_half_even num (den * 2 ^ e)
           else round_half_even (num * 2 ^ (- e)) den in
  let e' := if (m =? 2 ^ 53)%Z then (e + 1)%Z else e in
  let m' := if (m =? 2 ^ 53)%Z then (2 ^ 52)%Z else m in
  if (971 <? e')%Z then (2047 * 2 ^ 52)%Z
  else if (m' <? 2 ^ 52)%Z then m'
  else ((e' + 1075) * 2 ^ 52 + (m' - 2 ^ 52))%Z.

Definition float_negative (bits : Z) : bool := (2 ^ 63 <=? bits)%Z.

(** The fraction a finite float stands for, its sign apart; nothing for an
    infinity or a NaN. *)
Definition float_fraction (bits : Z) : option (Z * Z) :=
  let field := ((bits / 2 ^ 52) mod 2048)%Z in
  let frac := (bits mod 2 ^ 52)%Z in
  if (field =? 2047)%Z then None
  else if (field =? 0)%Z then Some (frac, (2 ^ 1074)%Z)
  else if (1075 <=? field)%Z then Some (((frac + 2 ^ 52) * 2 ^ (field - 1075))%Z, 1%Z)
  else Some ((frac + 2 ^ 52)%Z, (2 ^ (1075 - field))%Z).

(** What is read back of the number [num / den], negated when [negative],
    once it is written with 16 significant digits. The text has neither a
    point nor an exponent when the rounded number is an integer below
    [10 ^ 16]; zero is written ["0"] or ["-0"]. *)
Definition number_read_back (negative : bool) (num den : Z) : value :=
  if (num =? 0)%Z then VInt 0
  else
    let '(N, X) := significant_16 num den in
    if ((0 <=? X) && (X <? 16) && (N mod 10 ^ (15 - X) =? 0))%Z then
      VInt (if negative then (- (N / 10 ^ (15 - X)))%Z else (N / 10 ^ (15 - X))%Z)
    else
      let bits := if (X <=? 15)%Z then nearest_float N (10 ^ (15 - X))
                  else nearest_float (N * 10 ^ (X - 15)) 1 in
      VFloat (if negative then (2 ^ 63 + bits)%Z else bits).

(** The conversions of openpyxl, value by value. A number is read back as
    computed above; a string as it is, but for the empty string, which
    leaves an empty cell; a date without a time comes back as a [datetime] at
    midnight; the others as they are. An infinity, a NaN and an integer
    beyond the floats are no numbers of a sheet and are left alone here. *)
Definition written_16g (v : value) : value :=
  match v with
  | VInt z =>
      match float_fraction (nearest_float (Z.abs z) 1) with
      | Some (num, den) => number_read_back (z <? 0)%Z num den
      | None => v
      end
  | VFloat bits =>
      match float_fraction bits with
      | Some (num, den) => number_read_back (float_negative bits) num den
      | None => v
      end
  | VStr EmptyString => VNone
  | VDate d => VDateTime (DateTime (date_year d) (date_month d) (date_day d) 0 0 0)
  | _ => v
  end.

(** ** The row loops of the two transfers *)

(** Lines 147-149: [next_row = 1; while cell(next_row, 1).value is not None:
    next_row += 1]. Looking a cell up creates it when absent, which changes
    no value; the scan is over the values. *)
Fixpoint scan_column1 (fuel : nat) (ws : Worksheet) (next_row : nat) : nat :=
  match fuel with
  | O => next_row
  | S fuel' =>
      if is_none (cell_value ws next_row 1) then next_row
      else scan_column1 fuel' ws (S next_row)
  end.

(** No cell lies below [max_row], so [S (max_row ws)] turns are enough
    (see [scan_column1_stops]). *)
Definition first_empty_row (ws : Worksheet) : nat :=
  scan_column1 (S (max_row ws)) ws 1.

(** Lines 152-154: one source row written at [next_row]. *)
Definition write_row (ws : Worksheet) (next_row : nat) (row : list value) : Worksheet :=
  foldl (λ ws cv, cell ws next_row cv.1 (format_value cv.2)) ws (enumerate 1 row).

(** Lines 151-155: the source rows from the second one on. *)
Definition write_rows (ws : Worksheet) (next_row : nat) (rows : list (list value))
  : Worksheet * nat :=
  foldl (λ acc row, (write_row acc.1 acc.2 row, S acc.2)) (ws, next_row) rows.

Definition append_data_rows (source_sheet destination_sheet : Worksheet) : Worksheet :=
  let next_row := first_empty_row destination_sheet in
  (write_rows destination_sheet next_row (iter_rows_from 2 source_sheet)).1.

(** Lines 175-177: every source row, formatted, appended to the new sheet. *)
Definition append_all_rows (source_sheet destination_sheet : Worksheet) : Worksheet :=
  foldl (λ ws row, append ws (format_value <$> row)) destination_sheet
        (iter_rows source_sheet).

Definition NEW_SHEET_NAME : string := "Transferred Data".

(** ** The file system *)

(** What a file holds: a workbook, given as [load_workbook] reads it, or
    bytes that are no archive. *)
Inductive file_data :=
  | Xlsx (wb : Workbook)
  | Raw (bytes : string).

(** The files by path, and the paths that cannot be written (no
    permission, locked, directory missing). *)
Record filesystem := {
  files : gmap string file_data;
  unwritable : gset string
}.

Definition write_file (p : string) (d : file_data) (f : filesystem) : filesystem :=
  {| files := <[p := d]> (files f); unwritable := unwritable f |}.

(** ** The manager, the events and the world the methods run in *)

Inductive step_fn :=
  | different_sheet_transfer_fn
  | excel_macro_fn
  | same_sheet_transfer_fn.

(** An entry of [pipeline_steps]: the keys 'id', 'name' and 'function'. *)
Record Step := {
  step_id : string;
  step_name : string;
  step_function : step_fn
}.

Record ScriptManager := {
  base_sheet_path : option string;
  new_data_sheet_path : option string;
  output_file_path : option string;
  pipeline_steps : list Step
}.

(** [self.step_functions] *)
Definition step_functions : gmap string step_fn :=
  {[ "different_sheet_transfer" := different_sheet_transfer_fn;
     "excel_macro" := excel_macro_fn;
     "same_sheet_transfer" := same_sheet_transfer_fn ]}.

Definition initial_steps : list Step :=
  [ {| step_id := "different_sheet_transfer"; step_name := "Transfer to New Sheet";
       step_function := different_sheet_transfer_fn |};
    {| step_id := "excel_macro"; step_name := "Execute Excel Macro";
       step_function := excel_macro_fn |};
    {| step_id := "same_sheet_transfer"; step_name := "Append to Base Sheet";
       step_function := same_sheet_transfer_fn |} ].

(** [ScriptManager.__init__] *)
Definition init : ScriptManager :=
  {| base_sheet_path := None; new_data_sheet_path := None;
     output_file_path := None; pipeline_steps := initial_steps |}.

(** What [socketio.emit] sends. *)
Inductive event :=
  | step_start (id : string)
  | step_complete (id : string)
  | step_error (id : string) (error : string)
  | pipeline_complete (output_file : string)
  | pipeline_error (error : string)
  | pipeline_config_updated (success : bool).

(** The manager, the disk, the events emitted so far and the number of
    background threads started so far. *)
Record World := {
  self : ScriptManager;
  fs : filesystem;
  emitted : list event;
  threads : nat
}.

Definition set_self (f : ScriptManager → ScriptManager) (w : World) : World :=
  {| self := f (self w); fs := fs w; emitted := emitted w; threads := threads w |}.
Definition set_fs (f : filesystem → filesystem) (w : World) : World :=
  {| self := self w; fs := f (fs w); emitted := emitted w; threads := threads w |}.
Definition set_steps (steps : list Step) (m : ScriptManager) : ScriptManager :=
  {| base_sheet_path := base_sheet_path m;
     new_data_sheet_path := new_data_sheet_path m;
     output_file_path := output_file_path m;
     pipeline_steps := steps |}.

Definition emit (ev : event) : M World unit :=
  modify (λ w, {| self := self w; fs := fs w; emitted := emitted w ++ [ev];
                  threads := threads w |}).

(** [Thread(target=self._run_pipeline).start()] *)
Definition start_thread : M World unit :=
  modify (λ w, {| self := self w; fs := fs w; emitted := emitted w;
                  threads := S (threads w) |}).

(** [os.path.exists(p)] *)
Definition path_exists (p : string) : M World bool :=
  gets (λ w, bool_decide (is_Some (files (fs w) !! p))).

(** [shutil.copy2(src, dst)] *)
Definition copy2 (src dst : string) : M World unit :=
  λ w,
    match files (fs w) !! src with
    | None => (w, Raise (Exn FileNotFoundError
                           ("[Errno 2] No such file or directory: " +:+ py_repr src)))
    | Some d =>
        if String.eqb src dst then
          (w, Raise (Exn SameFileError
                       (py_repr src +:+ " and " +:+ py_repr dst +:+ " are the same file")))
        else if bool_decide (dst ∈ unwritable (fs w)) then
          (w, Raise (Exn PermissionError
                       ("[Errno 13] Permission denied: " +:+ py_repr dst)))
        else (set_fs (write_file dst d) w, Ok tt)
    end.

(** [os.path.splitext(p)[-1]]: the last dot of the base name and what
    follows it, when a character other than a dot comes before that dot;
    empty otherwise. [started] tells that such a character was met. *)
Fixpoint extension_from (started : bool) (s : string) : string :=
  match s with
  | EmptyString => EmptyString
  | String c rest =>
      if is_dot c then
        (if started && negb (has_dot rest) then s else extension_from started rest)
      else extension_from true rest
  end.

Definition splitext_ext (p : string) : string := extension_from false (basename p).

(** The formats [load_workbook] opens, which it tells by the name of the
    file before it touches the file. *)
Definition SUPPORTED_FORMATS : list string := [".xlsx"; ".xlsm"; ".xltx"; ".xltm"].

Definition supported_format (p : string) : bool :=
  existsb (String.eqb (lower (splitext_ext p))) SUPPORTED_FORMATS.

Definition unsupported_format_msg (file_format : string) : string :=
  if String.eqb file_format ".xls" then
    "openpyxl does not support the old .xls file format, please use xlrd to read this file, or convert it to the more recent .xlsx file format."
  else if String.eqb file_format ".xlsb" then
    "openpyxl does not support binary format .xlsb, please convert this file to XLSX format if you want to open it with openpyxl"
  else
    "openpyxl does not support " +:+ file_format
    +:+ " file format, please check you can open it with Excel first. Supported formats are: .xlsx,.xlsm,.xltx,.xltm".

(** [load_workbook(p)], where [p] is an attribute that may still be
    [None]. *)
Definition load_workbook (p : option string) : M World Workbook :=
  λ w,
    match p with
    | None => (w, Raise (Exn TypeError "expected str, bytes or os.PathLike object, not NoneType"))
    | Some p =>
        if negb (supported_format p) then
          (w, Raise (Exn InvalidFileException
                       (unsupported_format_msg (lower (splitext_ext p)))))
        else
          match files (fs w) !! p with
          | None => (w, Raise (Exn FileNotFoundError
                                 ("[Errno 2] No such file or directory: " +:+ py_repr p)))
          | Some (Raw _) => (w, Raise (Exn BadZipFile "File is not a zip file"))
          | Some (Xlsx wb) =>
              (w, Ok {| _sheets := bind_cells <$> _sheets wb;
                        _active_sheet_index := _active_sheet_index wb |})
          end
    end.

(** [workbook.save(p)]: the file then holds what the library keeps of the
    workbook. *)
Definition save `{Openpyxl} (wb : Workbook) (p : option string) : M World unit :=
  λ w,
    match p with
    | None => (w, Raise (Exn TypeError "expected str, bytes or os.PathLike object, not NoneType"))
    | Some p =>
        if bool_decide (p ∈ unwritable (fs w)) then
          (w, Raise (Exn PermissionError
                       ("[Errno 13] Permission denied: " +:+ py_repr p)))
        else (set_fs (write_file p (Xlsx (stored wb))) w, Ok tt)
    end.

(** An attribute looked up on [wb.active] when that is [None]. *)
Definition the_sheet (ws : option Worksheet) (attribute : string) : M World Worksheet :=
  match ws with
  | Some ws => mret ws
  | None => raise (Exn AttributeError
                     ("'NoneType' object has no attribute '" +:+ attribute +:+ "'"))
  end.

(** The sheet object [wb.active] is part of the workbook: what is written
    to it is written to the workbook. *)
Definition set_active (wb : Workbook) (ws : Worksheet) : Workbook :=
  {| _sheets := <[_active_sheet_index wb := ws]> (_sheets wb);
     _active_sheet_index := _active_sheet_index wb |}.

(** ** ScriptManager: the three step operations *)

(** Lines 123-137 *)
Definition _execute_excel_macro `{Openpyxl} : M World unit :=
  try_except
    (base ← gets (base_sheet_path ∘ self);
     workbook ← load_workbook base;
     save workbook base)
    (λ e, raise e).

(** Lines 139-163 *)
Definition _execute_same_sheet_transfer `{Openpyxl} : M World unit :=
  try_except
    (new_data ← gets (new_data_sheet_path ∘ self);
     base ← gets (base_sheet_path ∘ self);
     source_workbook ← load_workbook new_data;
     destination_workbook ← load_workbook base;
     destination_sheet ← the_sheet (active destination_workbook) "cell";
     source_sheet ← the_sheet (active source_workbook) "iter_rows";
     save (set_active destination_workbook
             (append_data_rows source_sheet destination_sheet)) base)
    (λ e, raise e).

(** Lines 165-185 *)
Definition _execute_different_sheet_transfer `{Openpyxl} : M World unit :=
  try_except
    (new_data ← gets (new_data_sheet_path ∘ self);
     base ← gets (base_sheet_path ∘ self);
     source_workbook ← load_workbook new_data;
     destination_workbook ← load_workbook base;
     match create_sheet destination_workbook NEW_SHEET_NAME with
     | Raise e => raise e
     | Ok destination_sheet =>
         source_sheet ← the_sheet (active source_workbook) "iter_rows";
         save (_add_sheet destination_workbook
                 (append_all_rows source_sheet destination_sheet)) base
     end)
    (λ e, raise e).

Definition call_step `{Openpyxl} (f : step_fn) : M World unit :=
  match f with
  | different_sheet_transfer_fn => _execute_different_sheet_transfer
  | excel_macro_fn => _execute_excel_macro
  | same_sheet_transfer_fn => _execute_same_sheet_transfer
  end.

(** ** ScriptManager: path state, registry and runner *)

(** Truthiness of a path attribute: [None] and the empty string are false. *)
Definition truthy (p : option string) : bool :=
  match p with
  | None => false
  | Some p => negb (String.eqb p "")
  end.

(** Lines 47-48: the name and the path of the backup. [now] is what
    [datetime.now()] reads. *)
Definition backup_filename (now : datetime) (base_path : string) : string :=
  "backup_" +:+ strftime_stamp now +:+ "_" +:+ basename base_path.

Definition backup_path (now : datetime) (base_path : string) : string :=
  path_join BACKUP_FOLDER (backup_filename now base_path).

(** Lines 41-58 *)
Definition update_file_paths (now : datetime) (base_path new_data_path : string)
  : M World unit :=
  try_except
    (found ← path_exists base_path;
     (if found : bool then copy2 base_path (backup_path now base_path)
      else mret tt);;
     modify (set_self (λ m,
       {| base_sheet_path := Some base_path;
          new_data_sheet_path := Some new_data_path;
          output_file_path :=
            Some (path_join OUTPUT_FOLDER ("processed_" +:+ basename base_path));
          pipeline_steps := pipeline_steps m |})))
    (λ e, raise e).

(** [step_order.index(x)] *)
Fixpoint index (x : string) (l : list string) : option nat :=
  match l with
  | [] => None
  | y :: l' => if String.eqb y x then Some 0 else S <$> index x l'
  end.

(** The keys of [pipeline_steps.sort(key=lambda x: step_order.index(x['id']))],
    computed for every step before any is moved; an id that is not in
    [step_order] raises. *)
Fixpoint sort_keys (step_order : list string) (steps : list Step)
  : result (list (nat * Step)) :=
  match steps with
  | [] => Ok []
  | x :: rest =>
      match index (step_id x) step_order with
      | None => Raise (Exn ValueError ("'" +:+ step_id x +:+ "' is not in list"))
      | Some k =>
          match sort_keys step_order rest with
          | Ok keyed => Ok ((k, x) :: keyed)
          | Raise e => Raise e
          end
      end
  end.

(** A stable sort by key: an item goes before the items of equal key that
    followed it. *)
Fixpoint insert_by_key (kx : nat * Step) (l : list (nat * Step)) : list (nat * Step) :=
  match l with
  | [] => [kx]
  | ky :: l' => if (kx.1 <=? ky.1)%nat then kx :: l else ky :: insert_by_key kx l'
  end.

Definition stable_sort (l : list (nat * Step)) : list (nat * Step) :=
  foldr insert_by_key [] l.

(** [self.pipeline_steps.sort(key=...)]: when a key raises the list is left
    as it was. *)
Definition sort_pipeline_steps (step_order : list string) : M World unit :=
  λ w,
    match sort_keys step_order (pipeline_steps (self w)) with
    | Ok keyed => (set_self (set_steps (snd <$> stable_sort keyed)) w, Ok tt)
    | Raise e => (w, Raise e)
    end.

(** [self.pipeline_steps[0]['id']] *)
Definition first_step_id : M World string :=
  λ w,
    match pipeline_steps (self w) with
    | step :: _ => (w, Ok (step_id step))
    | [] => (w, Raise (Exn IndexError "list index out of range"))
    end.

(** Lines 60-72. [step_order] is [None] when the caller gives none. *)
Definition execute_pipeline (step_order : option (list string)) : M World unit :=
  base ← gets (base_sheet_path ∘ self);
  new_data ← gets (new_data_sheet_path ∘ self);
  if negb (truthy base) || negb (truthy new_data) then
    first ← first_step_id;
    emit (step_error first "Please upload both Excel files before running the pipeline")
  else
    (match step_order with
     | Some (id :: ids) => sort_pipeline_steps (id :: ids)
     | _ => mret tt
     end);;
    start_thread.

(** Lines 76-87: the loop over the steps. [true] when every step
    completed, [false] when the method returned after a [step_error]. *)
Fixpoint run_steps `{Openpyxl} (steps : list Step) : M World bool :=
  match steps with
  | [] => mret true
  | step :: rest =>
      completed ←
        try_except
          (emit (step_start (step_id step));;
           call_step (step_function step);;
           emit (step_complete (step_id step));;
           mret true)
          (λ e, emit (step_error (step_id step) (exn_msg e));; mret false);
      if completed : bool then run_steps rest else mret false
  end.

(** [os.path.exists] and [copy2] on attributes that may still be [None]. *)
Definition the_path (p : option string) : M World string :=
  match p with
  | Some p => mret p
  | None => raise (Exn TypeError "expected str, bytes or os.PathLike object, not NoneType")
  end.

(** Lines 89-106: the final result copied to the output folder. *)
Definition copy_final_result : M World unit :=
  base ← gets (base_sheet_path ∘ self);
  base ← the_path base;
  found ← path_exists base;
  if found : bool then
    try_except
      (output ← gets (output_file_path ∘ self);
       output ← the_path output;
       copy2 base output;;
       emit (pipeline_complete (basename output)))
      (λ e, emit (pipeline_error ("Failed to generate output file: " +:+ exn_msg e)))
  else
    emit (pipeline_error "Failed to generate output file").

(** Lines 74-106 *)
Definition _run_pipeline `{Openpyxl} : M World unit :=
  steps ← gets (pipeline_steps ∘ self);
  completed ← run_steps steps;
  if completed : bool then copy_final_result else mret tt.

(** Lines 108-121 *)
Definition update_pipeline_config (step_order : list string) : M World bool :=
  try_except
    (if forallb (λ step_id, bool_decide (is_Some (step_functions !! step_id))) step_order
     then sort_pipeline_steps step_order;; mret true
     else raise (Exn ValueError "Invalid step ID in configuration"))
    (λ e, mret false).

(** ** [config.allowed_file] *)

(** [filename.rsplit('.', 1)[1]] of a name that holds a dot: what follows
    the last dot. *)
Fixpoint after_last_dot (s : string) : string :=
  match s with
  | EmptyString => EmptyString
  | String c rest =>
      if has_dot rest then after_last_dot rest
      else if is_dot c then rest
      else s
  end.

Definition ALLOWED_EXTENSIONS : list string := ["xlsx"; "xls"].

Definition allowed_file (filename : string) : bool :=
  has_dot filename
  && existsb (String.eqb (lower (after_last_dot filename))) ALLOWED_EXTENSIONS.

(** ** [app.py]: the upload handler and the two socket handlers *)

(** An uploaded part: the name the client gave and the bytes sent. *)
Record FileStorage := {
  filename : string;
  stream : file_data
}.

(** [request.files]: the parts 'baseSheet' and 'newDataSheet', when sent. *)
Record upload_form := {
  baseSheet : option FileStorage;
  newDataSheet : option FileStorage
}.

Inductive response :=
  | Uploaded (base_sheet new_data_sheet : string)
  | Error (status : nat) (error : string).

(** [part.save(path)] *)
Definition save_upload (part : FileStorage) (p : string) : M World unit :=
  λ w,
    if bool_decide (p ∈ unwritable (fs w)) then
      (w, Raise (Exn PermissionError
                   ("[Errno 13] Permission denied: " +:+ py_repr p)))
    else (set_fs (write_file p (stream part)) w, Ok tt).

Section App.

(** [werkzeug.utils.secure_filename], which the handler trusts to give a
    plain file name; nothing below depends on what it computes. *)
Variable secure_filename : string → string.

(** Lines 32-68 of [app.py] *)
Definition upload_files (now : datetime) (form : upload_form) : M World response :=
  try_except
    (match baseSheet form, newDataSheet form with
     | Some base_sheet, Some new_data_sheet =>
         if String.eqb (filename base_sheet) "" || String.eqb (filename new_data_sheet) ""
         then mret (Error 400 "No selected files")
         else if negb (forallb (λ f, allowed_file (filename f)) [base_sheet; new_data_sheet])
         then mret (Error 400
                "Invalid file type. Only Excel files (.xlsx, .xls) are allowed")
         else
           let base_filename := secure_filename (filename base_sheet) in
           let base_path := path_join UPLOAD_FOLDER base_filename in
           save_upload base_sheet base_path;;
           let new_data_filename := secure_filename (filename new_data_sheet) in
           let new_data_path := path_join UPLOAD_FOLDER new_data_filename in
           save_upload new_data_sheet new_data_path;;
           update_file_paths now base_path new_data_path;;
           mret (Uploaded base_filename new_data_filename)
     | _, _ => mret (Error 400 "Both files are required")
     end)
    (λ e, mret (Error 500 (exn_msg e))).

End App.

(** Lines 70-77 of [app.py]; [steps] is [data['steps']] when the message
    carries it. *)
Definition handle_pipeline_start (steps : option (list string)) : M World unit :=
  match steps with
  | Some steps => execute_pipeline (Some steps)
  | None => execute_pipeline None
  end.

(** Lines 79-85 of [app.py] *)
Definition handle_pipeline_config_update (steps : option (list string)) : M World unit :=
  match steps with
  | Some steps =>
      success ← update_pipeline_config steps;
      emit (pipeline_config_updated success)
  | None => mret tt
  end.

(** [secure_filename] on a name of ASCII characters: slashes become
    spaces, runs of blanks become one underscore, every character outside
    letters, digits, underscore, dot and hyphen is dropped, and dots and
    underscores are stripped from both ends. The blanks are those of
    [str.split]: the space, tab to carriage return, and the four separators
    from 28 to 31. *)
Definition is_blank (c : ascii) : bool :=
  let n := nat_of_ascii c in
  ((n =? 32) || ((9 <=? n) && (n <=? 13)) || ((28 <=? n) && (n <=? 31)))%nat.

Definition is_safe_char (c : ascii) : bool :=
  let n := nat_of_ascii c in
  (((48 <=? n) && (n <=? 57)) || ((65 <=? n) && (n <=? 90))
   || ((97 <=? n) && (n <=? 122)) || (n =? 95) || (n =? 46) || (n =? 45))%nat.

Definition is_dot_or_underscore (c : ascii) : bool :=
  let n := nat_of_ascii c in ((n =? 46) || (n =? 95))%nat.

(** ["_".join(s.split())] on a list of characters. *)
Fixpoint join_words (pending : bool) (started : bool) (l : list ascii) : list ascii :=
  match l with
  | [] => []
  | c :: rest =>
      if is_blank c || is_slash c then join_words started started rest
      else (if pending then ["_"%char] else []) ++ c :: join_words false true rest
  end.

Fixpoint drop_while (f : ascii → bool) (l : list ascii) : list ascii :=
  match l with
  | c :: rest => if f c then drop_while f rest else l
  | [] => []
  end.

Definition strip_dots (l : list ascii) : list ascii :=
  reverse (drop_while is_dot_or_underscore
             (reverse (drop_while is_dot_or_underscore l))).

Definition secure_filename_ascii (filename : string) : string :=
  let chars := List.filter (λ c, (nat_of_ascii c <? 128)%nat) (list_ascii_of_string filename) in
  string_of_list_ascii
    (strip_dots (List.filter is_safe_char (join_words false false chars))).

(** * Vocabulary of the statements *)

(** The events of steps that ran to completion. *)
Definition completed_events (steps : list Step) : list event :=
  flat_map (λ s, [step_start (step_id s); step_complete (step_id s)]) steps.

(** What the copy stage needs to succeed: an output path, other than the
    destination, that can be written. *)
Definition copy_possible (f : filesystem) (base : string) (output : option string) : bool :=
  match output with
  | Some output => negb (String.eqb base output) && bool_decide (output ∉ unwritable f)
  | None => false
  end.

(** The order [stable_sort] sorts by. *)
Definition key_le (kx ky : nat * Step) : Prop := (kx.1 ≤ ky.1)%nat.

(** The ids of the [step_start] events among [evs], in order. *)
Definition step_starts (evs : list event) : list string :=
  omap (λ ev, match ev with step_start id => Some id | _ => None end) evs.

(** The rows of a sheet whose first cell holds a value. *)
Definition populated_rows (ws : Worksheet) : list nat :=
  filter (λ r, cell_value ws r 1 ≠ VNone) (seq 1 (max_row ws)).

(** The workbook a file holds, and the sheet at a position in it; nothing
    when there is no such workbook or sheet. *)
Definition workbook_at (p : string) (w : World) : Workbook :=
  match files (fs w) !! p with
  | Some (Xlsx wb) => wb
  | _ => {| _sheets := []; _active_sheet_index := 0 |}
  end.

Definition sheet_at (i : nat) (wb : Workbook) : Worksheet :=
  default {| title := ""; _cells := ∅; _styled := ∅; _current_row := 0 |}
    (_sheets wb !! i).

(** * Sample worlds *)

(** The samples run with the conversions of openpyxl. *)
Global Instance openpyxl_16g : Openpyxl := written_16g.

(** A sheet and a one-sheet workbook from a list of cells. *)
Definition sheet_of (t : string) (l : list (nat * nat * value)) : Worksheet :=
  {| title := t; _cells := list_to_map l; _styled := ∅; _current_row := 0 |}.

Definition book_of (l : list (nat * nat * value)) : Workbook :=
  {| _sheets := [sheet_of "Sheet" l]; _active_sheet_index := 0 |}.

Definition macro_step : Step :=
  {| step_id := "excel_macro"; step_name := "Execute Excel Macro";
     step_function := excel_macro_fn |}.
Definition same_step : Step :=
  {| step_id := "same_sheet_transfer"; step_name := "Append to Base Sheet";
     step_function := same_sheet_transfer_fn |}.
Definition different_step : Step :=
  {| step_id := "different_sheet_transfer"; step_name := "Transfer to New Sheet";
     step_function := different_sheet_transfer_fn |}.

(** Both paths set, the macro step first, a destination that is a workbook
    and a source that is not one. *)
Definition world_bad_source : World :=
  {| self := {| base_sheet_path := Some "uploads/base.xlsx";
                new_data_sheet_path := Some "uploads/new.xlsx";
                output_file_path := Some "output/processed_base.xlsx";
                pipeline_steps := [macro_step; same_step; different_step] |};
     fs := {| files := {[ "uploads/base.xlsx" := Xlsx (book_of [((1, 1), VStr "h")]);
                          "uploads/new.xlsx" := Raw "not a workbook" ]};
              unwritable := ∅ |};
     emitted := []; threads := 1 |}.

(** Nothing uploaded yet. *)
Definition world_idle : World :=
  {| self := init; fs := {| files := ∅; unwritable := ∅ |};
     emitted := []; threads := 0 |}.

(** Both files uploaded: a destination of three rows, and a source with a
    header and two data rows, one of them a date. *)
Definition base_book : Workbook :=
  book_of [((1, 1), VStr "name"); ((1, 2), VStr "since");
           ((2, 1), VStr "ann"); ((2, 2), VStr "01/02/2020");
           ((3, 1), VStr "bob"); ((3, 2), VStr "15/06/2021")].

Definition new_book : Workbook :=
  book_of [((1, 1), VStr "name"); ((1, 2), VStr "since");
           ((2, 1), VStr "cy"); ((2, 2), VDateTime (DateTime 2024 3 7 0 0 0));
           ((3, 1), VStr "di"); ((3, 2), VInt 7)].

Definition manager_ready : ScriptManager :=
  {| base_sheet_path := Some "uploads/base.xlsx";
     new_data_sheet_path := Some "uploads/new.xlsx";
     output_file_path := Some "output/processed_base.xlsx";
     pipeline_steps := initial_steps |}.

Definition world_ready : World :=
  {| self := manager_ready;
     fs := {| files := {[ "uploads/base.xlsx" := Xlsx base_book;
                          "uploads/new.xlsx" := Xlsx new_book ]};
              unwritable := ∅ |};
     emitted := []; threads := 1 |}.

(** The base file is on disk and its backup path cannot be written. *)
Definition world_locked_backup : World :=
  {| self := init;
     fs := {| files := {[ "uploads/base.xlsx" := Xlsx base_book;
                          "uploads/new.xlsx" := Xlsx new_book ]};
              unwritable := {[ "backups/backup_20240307_090559_base.xlsx" ]} |};
     emitted := []; threads := 0 |}.

(** A requested order that names every step and an id no step carries. *)
Definition order_with_unknown_id : list string :=
  ["same_sheet_transfer"; "bogus"; "excel_macro"; "different_sheet_transfer"].

(** A destination of one row, and a source whose only data row has an empty
    first cell. *)
Definition blank_cell_base : Workbook :=
  book_of [((1, 1), VStr "name"); ((1, 2), VStr "since")].



(** A destination that holds a value below its last filled row, and a
    source whose data row is empty in that column. *)
Definition leftover_base : Workbook :=
  book_of [((1, 1), VStr "name"); ((1, 2), VStr "since"); ((2, 2), VStr "old")].

Definition leftover_new : Workbook :=
  book_of [((1, 1), VStr "name"); ((1, 2), VStr "since"); ((2, 1), VStr "cy")].

Definition world_leftover : World :=
  {| self := manager_ready;
     fs := {| files := {[ "uploads/base.xlsx" := Xlsx leftover_base;
                          "uploads/new.xlsx" := Xlsx leftover_new ]};
              unwritable := ∅ |};
     emitted := []; threads := 1 |}.

(** A destination of one row, and a source whose data row holds a time of
    day, a [datetime] of the year 999, the float 0.30000000000000004 (bits
    3FD3333333333334) and the integer 2^53 + 1. *)
Definition typed_base : Workbook :=
  book_of [((1, 1), VStr "what"); ((1, 2), VStr "at"); ((1, 3), VStr "on");
           ((1, 4), VStr "share"); ((1, 5), VStr "count")].

Definition typed_new : Workbook :=
  book_of [((1, 1), VStr "what"); ((1, 2), VStr "at"); ((1, 3), VStr "on");
           ((1, 4), VStr "share"); ((1, 5), VStr "count");
           ((2, 1), VStr "ev"); ((2, 2), VTime (Time 12 30 0));
           ((2, 3), VDateTime (DateTime 999 1 2 0 0 0));
           ((2, 4), VFloat 4599075939470750516);
           ((2, 5), VInt 9007199254740993)].

Definition world_typed : World :=
  {| self := manager_ready;
     fs := {| files := {[ "uploads/base.xlsx" := Xlsx typed_base;
                          "uploads/new.xlsx" := Xlsx typed_new ]};
              unwritable := ∅ |};
     emitted := []; threads := 1 |}.

(** Both parts sent under one file name. *)
Definition same_name_form : upload_form :=
  {| baseSheet := Some {| filename := "data.xlsx"; stream := Xlsx base_book |};
     newDataSheet := Some {| filename := "data.xlsx"; stream := Xlsx new_book |} |}.

(** A new base file sent while an earlier one is at the destination path. *)
Definition replacing_form : upload_form :=
  {| baseSheet := Some {| filename := "base.xlsx"; stream := Xlsx blank_cell_base |};
     newDataSheet := Some {| filename := "new.xlsx"; stream := Xlsx new_book |} |}.

(** The two files of [world_ready], as an upload. *)
Definition first_form : upload_form :=
  {| baseSheet := Some {| filename := "base.xlsx"; stream := Xlsx base_book |};
     newDataSheet := Some {| filename := "new.xlsx"; stream := Xlsx new_book |} |}.

(** An upload, a start request without a step order, and the run of the
    thread it starts. *)
Definition upload_and_run : M World unit :=
  upload_files secure_filename_ascii (DateTime 2024 3 7 9 5 59) first_form;;
  handle_pipeline_start None;;
  _run_pipeline.

(** * Vocabulary of the further properties *)


(** The dates a clock can read. *)
Definition valid_datetime (d : datetime) : Prop :=
  (1000 ≤ year d < 100 * 100 ∧ 1 ≤ month d ≤ 12 ∧ 1 ≤ day d ≤ 31
   ∧ hour d < 24 ∧ minute d < 60 ∧ second d < 60)%nat.

(** The stored paths are all absent, or all present with the output path
    derived from the base path and different from it. *)
Definition paths_ok (m : ScriptManager) : Prop :=
  match base_sheet_path m, new_data_sheet_path m, output_file_path m with
  | None, None, None => True
  | Some base, Some _, Some output =>
      output = path_join OUTPUT_FOLDER ("processed_" +:+ basename base)
      ∧ output ≠ base
  | _, _, _ => False
  end.

Section Reachable.

Context `{Openpyxl}.
Variable secure_filename : string → string.

(** The worlds the application can be in: it starts with a fresh manager
    over any disk; requests are handled, started threads run, and other
    processes change the disk. *)
Inductive reachable : World → Prop :=
  | reachable_start (disk : filesystem) :
      reachable {| self := init; fs := disk; emitted := []; threads := 0 |}
  | reachable_upload (now : datetime) (form : upload_form) (w : World) :
      reachable w → reachable (upload_files secure_filename now form w).1
  | reachable_start_pipeline (steps : option (list string)) (w : World) :
      reachable w → reachable (handle_pipeline_start steps w).1
  | reachable_config_update (steps : option (list string)) (w : World) :
      reachable w → reachable (handle_pipeline_config_update steps w).1
  | reachable_run (w : World) :
      reachable w → reachable (_run_pipeline w).1
  | reachable_disk (f : filesystem → filesystem) (w : World) :
      reachable w → reachable (set_fs f w).

End Reachable.

(** An upload that carries no new data part. *)
Definition form_without_new_data : upload_form :=
  {| baseSheet := Some {| filename := "base.xlsx"; stream := Xlsx base_book |};
     newDataSheet := None |}.


(** * Properties *)

Local Open Scope list_scope.
Local Open Scope nat_scope.

(** ** What a step can touch *)

(** Unfolds the monad and the primitives of the world. *)
Ltac unfold_py :=
  unfold the_sheet, the_path, emit, start_thread, path_exists in *;
  unfold try_except, raise, gets, modify, load_workbook, save, copy2,
    mbind, mret, M_bind, M_ret, compose in *.

(** Closes the cases a [decide] leaves, by the hypotheses or arithmetic. *)
Ltac cases :=
  try done; try lia;
  repeat match goal with
         | H : _ ∧ _ |- _ => destruct H
         | H : (_, _) = (_, _) |- _ => inversion H; clear H; subst
         end;
  try done; try lia; try congruence;
  try (match goal with
       | H : ¬ (_ ∧ _) |- _ =>
           exfalso; apply H; repeat split; first [done | lia | congruence]
       end).

(** A step leaves the manager, the events and the thread count alone, and
    writes no file but the one at [base_sheet_path]. *)
Lemma call_step_frame {lib : Openpyxl} (f : step_fn) (w w' : World) (r : result unit) :
  call_step f w = (w', r) →
  self w' = self w ∧ emitted w' = emitted w ∧ threads w' = threads w
  ∧ unwritable (fs w') = unwritable (fs w)
  ∧ ∀ p, base_sheet_path (self w) ≠ Some p → files (fs w') !! p = files (fs w) !! p.
Proof.
  intros H.
  destruct f; simpl in H;
    unfold _execute_different_sheet_transfer, _execute_excel_macro,
      _execute_same_sheet_transfer in H;
    unfold_py; simpl in H;
    repeat (case_match; simplify_eq; simpl in * );
    repeat split; try done;
    intros p Hp; simpl; rewrite lookup_insert_ne; congruence.
Qed.

(** A step that raises has written nothing. *)
Lemma call_step_raise {lib : Openpyxl} (f : step_fn) (w w' : World) (e : exn) :
  call_step f w = (w', Raise e) → w' = w.
Proof.
  intros H.
  destruct f; simpl in H;
    unfold _execute_different_sheet_transfer, _execute_excel_macro,
      _execute_same_sheet_transfer in H;
    unfold_py; simpl in H;
    repeat (case_match; simplify_eq; simpl in * ); done.
Qed.

(** ** The runner *)

(** One turn of the loop of [_run_pipeline], by the outcome of the step. *)
Lemma run_steps_cons {lib : Openpyxl} (step : Step) (rest : list Step) (w : World) :
  run_steps (step :: rest) w =
    match call_step (step_function step) (emit (step_start (step_id step)) w).1 with
    | (w1, Ok _) => run_steps rest (emit (step_complete (step_id step)) w1).1
    | (w1, Raise e) => ((emit (step_error (step_id step) (exn_msg e)) w1).1, Ok false)
    end.
Proof.
  simpl. unfold_py. simpl.
  destruct (call_step _ _) as [w1 [[]|e]]; reflexivity.
Qed.

Lemma run_steps_frame {lib : Openpyxl} (steps : list Step) (w w' : World) (r : result bool) :
  run_steps steps w = (w', r) →
  self w' = self w ∧ threads w' = threads w
  ∧ unwritable (fs w') = unwritable (fs w)
  ∧ ∀ p, base_sheet_path (self w) ≠ Some p → files (fs w') !! p = files (fs w) !! p.
Proof.
  revert w. induction steps as [|step rest IH]; intros w H.
  - inversion H; subst. done.
  - rewrite run_steps_cons in H.
    destruct (call_step _ _) as [w1 [[]|e]] eqn:Hc;
      apply call_step_frame in Hc as (Hs & He & Ht & Hu & Hf); simpl in *.
    + apply IH in H as (Hs' & Ht' & Hu' & Hf'). simpl in *.
      repeat split; try congruence.
      intros p Hp. rewrite Hf', Hf; [done..|]. by rewrite Hs.
    + inversion H; subst; simpl. done.
Qed.

Lemma run_steps_completed {lib : Openpyxl} (steps : list Step) (w w' : World) :
  run_steps steps w = (w', Ok true) →
  emitted w' = emitted w ++ completed_events steps.
Proof.
  revert w. induction steps as [|step rest IH]; intros w H.
  - inversion H; subst. simpl. by rewrite app_nil_r.
  - rewrite run_steps_cons in H.
    destruct (call_step _ _) as [w1 [[]|e]] eqn:Hc; [|by inversion H].
    apply call_step_frame in Hc as (_ & He & _). apply IH in H.
    simpl in *. rewrite H, He. by rewrite <- !app_assoc.
Qed.

(** C1: when the operation of a step raises, every earlier step having
    completed, [_run_pipeline] emits [step_start] and [step_error] for that
    step, carrying the message of the exception, and returns: the events of
    the run are those of the completed steps followed by these two, so no
    event of a later step and no [pipeline_complete] or [pipeline_error]
    follows; the disk is as the completed steps left it, and no file other
    than the destination differs from before the run, so nothing was copied
    to the output path. *)
Theorem step_failure_ends_run {lib : Openpyxl} (w w1 w2 : World) (pre post : list Step) (s : Step) (e : exn) :
  pipeline_steps (self w) = pre ++ s :: post →
  run_steps pre w = (w1, Ok true) →
  call_step (step_function s) (emit (step_start (step_id s)) w1).1 = (w2, Raise e) →
  ∃ w', _run_pipeline w = (w', Ok tt)
    ∧ emitted w' = emitted w ++ completed_events pre
                     ++ [step_start (step_id s); step_error (step_id s) (exn_msg e)]
    ∧ fs w' = fs w1
    ∧ (∀ p, base_sheet_path (self w) ≠ Some p → files (fs w') !! p = files (fs w) !! p).
Proof.
  intros Hsteps Hpre Hraise.
  assert (Hloop : ∀ pre' v, run_steps pre' v = (w1, Ok true) →
            run_steps (pre' ++ s :: post) v
            = ((emit (step_error (step_id s) (exn_msg e)) w2).1, Ok false)).
  { induction pre' as [|p pre' IH]; intros v Hv.
    - inversion Hv; subst. simpl app. rewrite run_steps_cons. by rewrite Hraise.
    - simpl app. rewrite run_steps_cons in Hv. rewrite run_steps_cons.
      destruct (call_step (step_function p) _) as [v1 [[]|e']];
        [by apply IH | by inversion Hv]. }
  specialize (Hloop pre w Hpre).
  eexists. split.
  { unfold _run_pipeline. unfold_py. simpl. rewrite Hsteps, Hloop. reflexivity. }
  pose proof (call_step_raise _ _ _ _ Hraise) as ->.
  pose proof (run_steps_completed _ _ _ Hpre) as He.
  pose proof (run_steps_frame _ _ _ _ Hpre) as (_ & _ & _ & Hf).
  simpl. rewrite He, <- !app_assoc. simpl. repeat split; done.
Qed.

Lemma step_failure_ends_run_witness :
  ∃ w', _run_pipeline world_bad_source = (w', Ok tt)
    ∧ emitted w' = [step_start "excel_macro"; step_complete "excel_macro";
                    step_start "same_sheet_transfer";
                    step_error "same_sheet_transfer" "File is not a zip file"]
    ∧ files (fs w') !! "output/processed_base.xlsx" = None.
Proof.
  destruct (step_failure_ends_run world_bad_source
              (run_steps [macro_step] world_bad_source).1
              (emit (step_start "same_sheet_transfer")
                 (run_steps [macro_step] world_bad_source).1).1
              [macro_step] [different_step] same_step
              (Exn BadZipFile "File is not a zip file"))
    as (w' & Hrun & Hev & _ & Hfiles).
  - reflexivity.
  - vm_compute. reflexivity.
  - vm_compute. reflexivity.
  - exists w'. split; [exact Hrun|]. split; [exact Hev|].
    rewrite Hfiles; [reflexivity | discriminate].
Defined.

(** C6: when the source path or the destination path is absent,
    [execute_pipeline], with or without a step order, emits one event, the
    [step_error] of the first step of the current order, and returns: no
    thread is started, so no [step_start] or [step_complete] follows, and
    the manager and the disk are untouched. *)
Theorem missing_input_rejected (w : World) (step_order : option (list string))
    (first : Step) (rest : list Step) :
  pipeline_steps (self w) = first :: rest →
  base_sheet_path (self w) = None ∨ new_data_sheet_path (self w) = None →
  execute_pipeline step_order w
  = ({| self := self w; fs := fs w;
        emitted := emitted w ++ [step_error (step_id first)
                     "Please upload both Excel files before running the pipeline"];
        threads := threads w |}, Ok tt).
Proof.
  intros Hsteps Habsent. unfold execute_pipeline, first_step_id. unfold_py. simpl.
  assert (negb (truthy (base_sheet_path (self w)))
          || negb (truthy (new_data_sheet_path (self w))) = true) as ->.
  { destruct Habsent as [-> | ->]; simpl; [done | by rewrite orb_true_r]. }
  by rewrite Hsteps.
Qed.

Lemma missing_input_rejected_witness :
  execute_pipeline (Some ["excel_macro"]) world_idle
  = ({| self := self world_idle; fs := fs world_idle;
        emitted := emitted world_idle ++ [step_error (step_id different_step)
                     "Please upload both Excel files before running the pipeline"];
        threads := threads world_idle |}, Ok tt).
Proof.
  apply (missing_input_rejected world_idle (Some ["excel_macro"])
           different_step [macro_step; same_step]).
  - reflexivity.
  - left. reflexivity.
Defined.

(** C7: when every step has completed, [_run_pipeline] goes on to the copy
    stage. Whatever the disk holds at that moment (another process may have
    touched it since the last step saved), the stage ends the run with one
    event: [pipeline_error] when no file is at the destination path;
    [pipeline_complete] with the base name of the output path when the file
    is there and can be copied, the output path then holding a copy of it;
    [pipeline_error] with the message of the failure when the copy fails. *)
Theorem copy_stage_after_steps {lib : Openpyxl} (w w1 : World) (base : string) :
  base_sheet_path (self w) = Some base →
  run_steps (pipeline_steps (self w)) w = (w1, Ok true) →
  _run_pipeline w = copy_final_result w1
  ∧ ∀ disk : filesystem,
      let at_copy := set_fs (λ _, disk) w1 in
      ∃ w', copy_final_result at_copy = (w', Ok tt)
        ∧ self w' = self w ∧ threads w' = threads w
        ∧ match files disk !! base with
          | None =>
              emitted w' = emitted w1 ++ [pipeline_error "Failed to generate output file"]
              ∧ fs w' = disk
          | Some d =>
              if copy_possible disk base (output_file_path (self w)) then
                ∃ output, output_file_path (self w) = Some output
                  ∧ emitted w' = emitted w1 ++ [pipeline_complete (basename output)]
                  ∧ fs w' = write_file output d disk
              else
                ∃ msg, emitted w' = emitted w1
                         ++ [pipeline_error ("Failed to generate output file: " +:+ msg)]
                  ∧ fs w' = disk
          end.
Proof.
  intros Hbase Hrun. split.
  { unfold _run_pipeline. unfold_py. simpl. by rewrite Hrun. }
  apply run_steps_frame in Hrun as (Hs & Ht & _).
  intros disk at_copy. unfold copy_final_result. unfold_py. simpl.
  rewrite Hs, Hbase. simpl.
  destruct (files disk !! base) as [d|] eqn:Hd; simpl.
  2:{ eexists. split; [reflexivity|]. simpl. done. }
  rewrite Hs. unfold copy_possible.
  destruct (output_file_path (self w)) as [output|]; simpl.
  2:{ eexists. split; [reflexivity|]. simpl. eauto. }
  rewrite Hd. destruct (String.eqb base output); simpl.
  { eexists. split; [reflexivity|]. simpl. eauto. }
  destruct (decide (output ∈ unwritable disk)) as [Hu|Hu].
  - rewrite bool_decide_eq_true_2 by done. rewrite bool_decide_eq_false_2 by tauto.
    eexists. split; [reflexivity|]. simpl. eauto.
  - rewrite bool_decide_eq_false_2 by done. rewrite bool_decide_eq_true_2 by done.
    eexists. split; [reflexivity|]. simpl. eauto 10.
Qed.

Lemma copy_stage_after_steps_witness :
  _run_pipeline world_ready
  = copy_final_result (run_steps initial_steps world_ready).1.
Proof.
  destruct (copy_stage_after_steps world_ready
              (run_steps initial_steps world_ready).1 "uploads/base.xlsx")
    as [Hreach _].
  - reflexivity.
  - vm_compute. reflexivity.
  - exact Hreach.
Defined.

(** ** Path state *)

(** C9: when the file to back up exists and copying it to the backup path
    raises, [update_file_paths] raises that same exception and leaves the
    world as it was: none of the three stored paths is assigned. *)
Theorem backup_failure_propagates (now : datetime) (base_path new_data_path : string)
    (w w' : World) (e : exn) :
  is_Some (files (fs w) !! base_path) →
  copy2 base_path (backup_path now base_path) w = (w', Raise e) →
  update_file_paths now base_path new_data_path w = (w, Raise e).
Proof.
  intros Hex Hcopy. unfold update_file_paths. unfold_py. simpl.
  rewrite bool_decide_eq_true_2 by done.
  destruct Hex as [d Hd]. rewrite Hd in *.
  repeat (case_match; simplify_eq); done.
Qed.

Lemma backup_failure_propagates_witness :
  update_file_paths (DateTime 2024 3 7 9 5 59) "uploads/base.xlsx" "uploads/new.xlsx"
    world_locked_backup
  = (world_locked_backup,
     Raise (Exn PermissionError
              "[Errno 13] Permission denied: 'backups/backup_20240307_090559_base.xlsx'")).
Proof.
  apply (backup_failure_propagates (DateTime 2024 3 7 9 5 59)
           "uploads/base.xlsx" "uploads/new.xlsx"
           world_locked_backup world_locked_backup).
  - vm_compute. eauto.
  - vm_compute. reflexivity.
Defined.

(** ** The registry: sorting the steps by a requested order *)

Lemma index_lookup (x : string) (l : list string) (i : nat) :
  index x l = Some i → l !! i = Some x.
Proof.
  revert i. induction l as [|y l IH]; intros i H; simpl in *; [done|].
  destruct (String.eqb_spec y x) as [->|Hne].
  - by inversion H.
  - destruct (index x l) as [j|]; simpl in H; [|done].
    inversion H; subst. simpl. by apply IH.
Qed.

Lemma index_elem_of (x : string) (l : list string) :
  x ∈ l → is_Some (index x l).
Proof.
  induction 1 as [x l|x y l _ IH]; simpl.
  - rewrite String.eqb_refl. eauto.
  - destruct (String.eqb y x); [eauto|]. destruct IH as [j ->]. simpl. eauto.
Qed.

(** In a list without repetition every item is found at its own place. *)
Lemma index_seq (l : list string) :
  NoDup l → (λ x, default 0 (index x l)) <$> l = seq 0 (length l).
Proof.
  induction 1 as [|x l Hx _ IH]; simpl; [done|].
  rewrite String.eqb_refl. simpl. f_equal.
  rewrite <- fmap_S_seq, <- IH, <- list_fmap_compose.
  apply list_fmap_ext. intros i y Hy. simpl.
  destruct (String.eqb_spec x y) as [->|Hne].
  - apply list_elem_of_lookup_2 in Hy. done.
  - apply list_elem_of_lookup_2, index_elem_of in Hy as [j ->]. done.
Qed.

(** The keys are those of the steps, in the order of the steps. *)
Lemma sort_keys_Ok (order : list string) (steps : list Step) :
  Forall (λ x, step_id x ∈ order) steps →
  sort_keys order steps
  = Ok ((λ x, (default 0 (index (step_id x) order), x)) <$> steps).
Proof.
  induction 1 as [|x steps Hx _ IH]; simpl; [done|].
  apply index_elem_of in Hx as [k ->]. by rewrite IH.
Qed.

Lemma sort_keys_Raise (order : list string) (steps : list Step) (x : Step) :
  x ∈ steps → step_id x ∉ order → ∃ e, sort_keys order steps = Raise e.
Proof.
  intros Hx Hno. induction Hx as [x steps|x y steps _ IH]; simpl.
  - destruct (index (step_id x) order) eqn:Hi; [|eauto].
    apply index_lookup, list_elem_of_lookup_2 in Hi. done.
  - destruct (index (step_id y) order); [|eauto].
    destruct (IH Hno) as [e ->]. eauto.
Qed.

Lemma insert_by_key_Permutation (kx : nat * Step) (l : list (nat * Step)) :
  insert_by_key kx l ≡ₚ kx :: l.
Proof.
  induction l as [|ky l IH]; simpl; [done|].
  destruct (kx.1 <=? ky.1)%nat; [done|]. rewrite IH. apply Permutation_swap.
Qed.

Lemma stable_sort_Permutation (l : list (nat * Step)) : stable_sort l ≡ₚ l.
Proof.
  induction l as [|kx l IH]; simpl; [done|].
  by rewrite insert_by_key_Permutation, IH.
Qed.

Lemma insert_by_key_Sorted (kx : nat * Step) (l : list (nat * Step)) :
  Sorted key_le l → Sorted key_le (insert_by_key kx l).
Proof.
  induction 1 as [|ky l Hl IH Hhd]; simpl.
  - repeat constructor.
  - destruct (Nat.leb_spec kx.1 ky.1) as [Hle|Hlt].
    + constructor; [by constructor|]. by constructor.
    + constructor; [done|].
      destruct Hhd as [|kz l Hz]; simpl.
      * constructor. unfold key_le. lia.
      * destruct (kx.1 <=? kz.1)%nat; constructor; unfold key_le; [lia|done].
Qed.

Lemma stable_sort_Sorted (l : list (nat * Step)) : Sorted key_le (stable_sort l).
Proof.
  induction l as [|kx l IH]; simpl; [constructor|]. by apply insert_by_key_Sorted.
Qed.

Lemma Sorted_le_seq (start len : nat) : Sorted le (seq start len).
Proof.
  revert start. induction len as [|len IH]; intros start; simpl; [constructor|].
  constructor; [apply IH|]. destruct len; simpl; constructor. lia.
Qed.

(** Sorting steps whose ids are the requested ids, each once, puts the
    steps in the requested order. *)
Lemma sorted_steps_follow_order (order : list string) (steps : list Step) :
  NoDup order → step_id <$> steps ≡ₚ order →
  ∃ keyed, sort_keys order steps = Ok keyed
    ∧ snd <$> stable_sort keyed ≡ₚ steps
    ∧ step_id <$> (snd <$> stable_sort keyed) = order.
Proof.
  intros Hnd Hperm.
  set (key := λ x : string, default 0 (index x order)).
  assert (Hin : Forall (λ x, step_id x ∈ order) steps).
  { apply Forall_forall. intros x Hx. rewrite <- Hperm.
    apply list_elem_of_fmap. eauto. }
  set (keyed := (λ x, (key (step_id x), x)) <$> steps).
  exists keyed. split; [by apply sort_keys_Ok|].
  pose proof (stable_sort_Permutation keyed) as Hp.
  split.
  { rewrite Hp. unfold keyed. rewrite <- list_fmap_compose.
    by rewrite list_fmap_id. }
  assert (Hkeys : fst <$> stable_sort keyed = seq 0 (length order)).
  { apply (Sorted_unique le).
    - apply (Sorted_fmap fst key_le le); [done|apply stable_sort_Sorted].
    - apply Sorted_le_seq.
    - rewrite Hp. unfold keyed. rewrite <- list_fmap_compose.
      rewrite <- (index_seq order Hnd). fold key. rewrite <- Hperm.
      by rewrite <- list_fmap_compose. }
  assert (Hkeyed : Forall (λ kx, order !! kx.1 = Some (step_id kx.2)) (stable_sort keyed)).
  { rewrite Hp. unfold keyed. apply Forall_fmap, Forall_forall. intros x Hx. simpl.
    rewrite Forall_forall in Hin. apply Hin, index_elem_of in Hx as [k Hk].
    unfold key. rewrite Hk. simpl. by apply index_lookup. }
  apply (inj (fmap Some)).
  transitivity ((λ k, order !! k) <$> (fst <$> stable_sort keyed)).
  - rewrite <- !list_fmap_compose. apply Forall_fmap_ext_1.
    eapply Forall_impl; [exact Hkeyed|]. intros [k x] Hk. simpl in *. done.
  - rewrite Hkeys. apply list_eq. intros i. rewrite !list_lookup_fmap.
    destruct (decide (i < length order)) as [Hlt|Hge].
    + rewrite lookup_seq_lt by done. simpl.
      destruct (lookup_lt_is_Some_2 order i Hlt) as [x Hx]. by rewrite Hx.
    + rewrite lookup_seq_ge by lia. rewrite lookup_ge_None_2 by lia. done.
Qed.

Lemma step_starts_app (l k : list event) :
  step_starts (l ++ k) = step_starts l ++ step_starts k.
Proof. apply omap_app. Qed.

(** The events of the loop: the steps are started in the order of the
    list, up to the one that raised, if any. *)
Lemma run_steps_events {lib : Openpyxl} (steps : list Step) (w w' : World) (r : result bool) :
  run_steps steps w = (w', r) →
  ∃ evs, emitted w' = emitted w ++ evs
    ∧ step_starts evs `prefix_of` (step_id <$> steps)
    ∧ (r = Ok true ∧ step_starts evs = step_id <$> steps
       ∨ r = Ok false ∧ ∃ id msg, step_error id msg ∈ evs).
Proof.
  revert w. induction steps as [|step rest IH]; intros w H.
  - inversion H; subst. exists []. rewrite app_nil_r. simpl. eauto.
  - rewrite run_steps_cons in H.
    destruct (call_step _ _) as [w1 [[]|e]] eqn:Hc;
      apply call_step_frame in Hc as (_ & He & _); simpl in He.
    + apply IH in H as (evs & Hev & Hpre & Hres). simpl in Hev.
      exists (step_start (step_id step) :: step_complete (step_id step) :: evs).
      split; [rewrite Hev, He; by rewrite <- !app_assoc|].
      split; [simpl; by apply prefix_cons|].
      destruct Hres as [[-> Hall]|[-> (id & msg & Hin)]]; [left|right].
      * split; [done|]. simpl. by rewrite Hall.
      * split; [done|]. exists id, msg. by do 2 apply list_elem_of_further.
    + inversion H; subst; simpl.
      exists [step_start (step_id step); step_error (step_id step) (exn_msg e)].
      split; [rewrite He; by rewrite <- !app_assoc|].
      split; [simpl; apply prefix_cons, prefix_nil|].
      right. split; [done|]. exists (step_id step), (exn_msg e).
      apply list_elem_of_further, list_elem_of_here.
Qed.

(** The events of a whole run. *)
Lemma run_pipeline_events {lib : Openpyxl} (w w' : World) (r : result unit) :
  _run_pipeline w = (w', r) →
  ∃ evs, emitted w' = emitted w ++ evs
    ∧ step_starts evs `prefix_of` (step_id <$> pipeline_steps (self w))
    ∧ ((∀ id msg, step_error id msg ∉ evs) →
       step_starts evs = step_id <$> pipeline_steps (self w)).
Proof.
  unfold _run_pipeline. unfold_py. simpl. intros H.
  destruct (run_steps _ w) as [w1 r1] eqn:Hrun.
  destruct (run_steps_events _ _ _ _ Hrun) as (evs & Hev & Hpre & Hres).
  destruct Hres as [[-> Hall]|[-> (id & msg & Hin)]].
  - assert (∃ tail, emitted w' = emitted w1 ++ tail ∧ step_starts tail = []) as (tail & Ht & Hs).
    { unfold copy_final_result in H. unfold_py. simpl in H.
      repeat (case_match; simplify_eq; simpl in * );
        first [ by exists []; rewrite app_nil_r | by eexists [_] ]. }
    exists (evs ++ tail). rewrite Ht, Hev, <- app_assoc, step_starts_app, Hs, app_nil_r.
    rewrite Hall. done.
  - inversion H; subst. exists evs. split; [done|]. split; [done|].
    intros Hno. by apply Hno in Hin.
Qed.

Lemma known_ids (id : string) :
  id ∈ step_id <$> initial_steps ↔ is_Some (step_functions !! id).
Proof.
  unfold step_functions, initial_steps. simpl. rewrite !elem_of_cons, elem_of_nil.
  split.
  - intros [->|[->|[->|[]]]]; vm_compute; eauto.
  - intros [f Hf].
    destruct (decide (id = "different_sheet_transfer")) as [->|?]; [tauto|].
    destruct (decide (id = "excel_macro")) as [->|?]; [tauto|].
    destruct (decide (id = "same_sheet_transfer")) as [->|?]; [tauto|].
    rewrite !lookup_insert_ne, lookup_singleton_ne in Hf by done. done.
Qed.

(** C4: when the requested order holds the three known ids, each once,
    [update_pipeline_config] returns [True] and leaves the steps in the
    requested order, and so does the sort of [execute_pipeline] on its way to
    starting the thread. A run over these steps emits its [step_start] events
    in the requested order: always a prefix of it, and the whole of it unless
    a step raised, which ends the run. *)
Theorem reorder_then_run {lib : Openpyxl} (w : World) (step_order : list string) :
  pipeline_steps (self w) ≡ₚ initial_steps →
  step_order ≡ₚ step_id <$> initial_steps →
  ∃ steps,
    update_pipeline_config step_order w = (set_self (set_steps steps) w, Ok true)
    ∧ step_id <$> steps = step_order
    ∧ steps ≡ₚ initial_steps
    ∧ (truthy (base_sheet_path (self w)) = true →
       truthy (new_data_sheet_path (self w)) = true →
       execute_pipeline (Some step_order) w
       = ({| self := set_steps steps (self w); fs := fs w; emitted := emitted w;
             threads := S (threads w) |}, Ok tt))
    ∧ ∀ v v' r,
        pipeline_steps (self v) = steps →
        _run_pipeline v = (v', r) →
        ∃ evs, emitted v' = emitted v ++ evs
          ∧ step_starts evs `prefix_of` step_order
          ∧ ((∀ id msg, step_error id msg ∉ evs) → step_starts evs = step_order).
Proof.
  intros Hinv Horder.
  assert (Hnd : NoDup step_order).
  { rewrite Horder. apply (bool_decide_unpack _). by vm_compute. }
  assert (Hids : step_id <$> pipeline_steps (self w) ≡ₚ step_order).
  { by rewrite Hinv, Horder. }
  destruct (sorted_steps_follow_order _ _ Hnd Hids) as (keyed & Hkeys & Hperm & Hsorted).
  exists (snd <$> stable_sort keyed).
  split; [|split; [done|split; [by rewrite Hperm|split]]].
  - unfold update_pipeline_config, sort_pipeline_steps. unfold_py. simpl.
    assert (forallb (λ id, bool_decide (is_Some (step_functions !! id))) step_order = true) as ->.
    { apply forallb_forall. intros id Hid. apply list_elem_of_In in Hid.
      rewrite Horder in Hid. by apply bool_decide_eq_true_2, known_ids. }
    by rewrite Hkeys.
  - intros Hb Hn. unfold execute_pipeline, sort_pipeline_steps. unfold_py. simpl.
    rewrite Hb, Hn. simpl.
    destruct step_order as [|id ids].
    { symmetry in Horder. by apply Permutation_nil_r in Horder. }
    by rewrite Hkeys.
  - intros v v' r Hv Hrun.
    apply run_pipeline_events in Hrun. by rewrite Hv, Hsorted in Hrun.
Qed.

Lemma reorder_then_run_witness :
  ∃ steps,
    update_pipeline_config
      ["same_sheet_transfer"; "excel_macro"; "different_sheet_transfer"] world_ready
    = (set_self (set_steps steps) world_ready, Ok true)
    ∧ step_id <$> steps
      = ["same_sheet_transfer"; "excel_macro"; "different_sheet_transfer"].
Proof.
  destruct (reorder_then_run world_ready
              ["same_sheet_transfer"; "excel_macro"; "different_sheet_transfer"])
    as (steps & Hcfg & Hids & _).
  - reflexivity.
  - apply (bool_decide_unpack _). vm_compute. reflexivity.
  - exists steps. split; [exact Hcfg | exact Hids].
Defined.

(** An id that no step carries makes the configuration update fail and
    leave the world as it was. *)
Lemma config_update_rejects_unknown_id (w : World) (step_order : list string) (id : string) :
  id ∈ step_order → step_functions !! id = None →
  update_pipeline_config step_order w = (w, Ok false).
Proof.
  intros Hin Hno. unfold update_pipeline_config. unfold_py. simpl.
  assert (forallb (λ id, bool_decide (is_Some (step_functions !! id))) step_order = false) as ->.
  { apply not_true_is_false. intros Hall.
    rewrite forallb_forall in Hall. apply list_elem_of_In, Hall in Hin.
    apply bool_decide_eq_true_1 in Hin as [? ?]. congruence. }
  done.
Qed.

(** C5, at an order with an unknown id: [update_pipeline_config] returns
    [False] and changes nothing, but [execute_pipeline], which sorts without
    validating, reorders the steps and starts the run. *)
Theorem start_pipeline_accepts_unknown_id :
  execute_pipeline (Some order_with_unknown_id) world_ready
  = ({| self := set_steps [same_step; macro_step; different_step] manager_ready;
        fs := fs world_ready; emitted := [];
        threads := S (threads world_ready) |}, Ok tt)
  ∧ update_pipeline_config order_with_unknown_id world_ready = (world_ready, Ok false).
Proof. split; vm_compute; reflexivity. Qed.

(** ** Worksheets *)

Lemma cell_in_bounds (ws : Worksheet) (r c : nat) :
  is_Some (_cells ws !! (r, c)) → r ≤ max_row ws ∧ c ≤ max_column ws.
Proof.
  intros [v Hv]. unfold max_row, max_column.
  destruct (decide (_cells ws = ∅)) as [He|_].
  { rewrite He in Hv. by rewrite lookup_empty in Hv. }
  apply elem_of_map_to_list in Hv.
  split; apply max_list_elem_of_le, list_elem_of_fmap; by exists (r, c, v).
Qed.

Lemma cell_value_in_bounds (ws : Worksheet) (r c : nat) :
  cell_value ws r c ≠ VNone → r ≤ max_row ws ∧ c ≤ max_column ws.
Proof.
  unfold cell_value. intros H. apply cell_in_bounds.
  destruct (_cells ws !! (r, c)); [eauto | done].
Qed.


Lemma is_none_spec (v : value) : is_none v = true ↔ v = VNone.
Proof. destruct v; simpl; split; congruence. Qed.

(** The column scan stops at the first row whose first cell is empty,
    provided there is one within reach. *)
Lemma scan_column1_spec (ws : Worksheet) (fuel start : nat) :
  (∃ r, start ≤ r < start + fuel ∧ cell_value ws r 1 = VNone) →
  start ≤ scan_column1 fuel ws start
  ∧ cell_value ws (scan_column1 fuel ws start) 1 = VNone
  ∧ ∀ r, start ≤ r < scan_column1 fuel ws start → cell_value ws r 1 ≠ VNone.
Proof.
  revert start. induction fuel as [|fuel IH]; intros start (r & Hr & Hnone); [lia|].
  simpl. destruct (is_none (cell_value ws start 1)) eqn:E.
  - apply is_none_spec in E. split; [lia|]. split; [done|]. lia.
  - assert (cell_value ws start 1 ≠ VNone) as Hstart.
    { intros Heq. apply is_none_spec in Heq. congruence. }
    destruct (IH (S start)) as (Hle & Hres & Hbefore).
    { exists r. split; [|done]. destruct (decide (r = start)) as [->|]; [done|lia]. }
    split; [lia|]. split; [done|]. intros r' Hr'.
    destruct (decide (r' = start)) as [->|]; [done|]. apply Hbefore. lia.
Qed.

(** The scan of lines 147-149 always ends: on the first row of the sheet
    whose first cell is empty. *)
Lemma scan_column1_stops (ws : Worksheet) :
  1 ≤ first_empty_row ws
  ∧ cell_value ws (first_empty_row ws) 1 = VNone
  ∧ ∀ r, 1 ≤ r < first_empty_row ws → cell_value ws r 1 ≠ VNone.
Proof.
  apply scan_column1_spec. exists (S (max_row ws)). split; [lia|].
  destruct (decide (cell_value ws (S (max_row ws)) 1 = VNone)) as [|Hne]; [done|].
  apply cell_value_in_bounds in Hne. lia.
Qed.






(** A row as [iter_rows] yields it, by column. *)
Lemma row_values_lookup (ws : Worksheet) (r c : nat) :
  1 ≤ c →
  default VNone (row_values ws r !! (c - 1)) = cell_value ws r c.
Proof.
  intros Hc. unfold row_values. rewrite list_lookup_fmap.
  destruct (decide (c ≤ max_column ws)) as [Hle|Hgt].
  - rewrite lookup_seq_lt by lia. simpl. f_equal. lia.
  - rewrite lookup_seq_ge by lia. simpl.
    destruct (decide (cell_value ws r c = VNone)) as [|Hne]; [done|].
    apply cell_value_in_bounds in Hne. lia.
Qed.




(** ** What a file keeps of a workbook *)

(** A cell of the file holds what the library makes of the value saved; an
    empty cell stays empty, kept or not. *)
Lemma cell_value_stored_sheet {lib : Openpyxl} (ws : Worksheet) (r c : nat) :
  cell_value (stored_sheet ws) r c = as_written (cell_value ws r c).
Proof.
  unfold cell_value, stored_sheet, as_written. cbn [_cells].
  rewrite map_lookup_imap. destruct (_cells ws !! (r, c)) as [v|]; [|done].
  simpl. unfold stored_cell. destruct (is_none v) eqn:Hv; [|done].
  by case_bool_decide.
Qed.

Lemma sheetnames_stored {lib : Openpyxl} (wb : Workbook) :
  sheetnames (stored wb) = sheetnames wb.
Proof. unfold sheetnames, stored. simpl. by rewrite <- list_fmap_compose. Qed.

Lemma active_stored {lib : Openpyxl} (wb : Workbook) :
  active (stored wb) = stored_sheet <$> active wb.
Proof. unfold active, stored. simpl. by rewrite list_lookup_fmap. Qed.

(** What the step does to the disk when both workbooks can be read and the
    destination can be written. *)
Lemma same_sheet_transfer_saves {lib : Openpyxl} (w : World) (base new_data : string)
    (source_workbook destination_workbook : Workbook) (src dst : Worksheet) :
  base_sheet_path (self w) = Some base →
  new_data_sheet_path (self w) = Some new_data →
  supported_format base = true →
  supported_format new_data = true →
  files (fs w) !! new_data = Some (Xlsx source_workbook) →
  files (fs w) !! base = Some (Xlsx destination_workbook) →
  active source_workbook = Some src →
  active destination_workbook = Some dst →
  base ∉ unwritable (fs w) →
  _execute_same_sheet_transfer w
  = (set_fs (write_file base (Xlsx (stored
       {| _sheets := <[_active_sheet_index destination_workbook :=
                        append_data_rows (bind_cells src) (bind_cells dst)]>
                       (bind_cells <$> _sheets destination_workbook);
          _active_sheet_index := _active_sheet_index destination_workbook |}))) w,
     Ok tt).
Proof.
  intros Hb Hn Hfb Hfn Hs Hd Has Had Hw.
  unfold _execute_same_sheet_transfer. unfold_py. simpl.
  rewrite Hn, Hb, Hfn, Hfb. simpl. rewrite Hs, Hd. unfold active in *. simpl.
  rewrite !list_lookup_fmap, Has, Had. simpl.
  by rewrite bool_decide_eq_false_2.
Qed.

(** ** AppendToSameSheet *)






(** An empty source cell assigns nothing: the destination cell keeps the
    value it held, so the rows below the last filled one have to be empty
    for the appended rows to equal the source rows. *)
Lemma append_keeps_value_under_blank :
  let w' := (_execute_same_sheet_transfer world_leftover).1 in
  let dst' := sheet_at 0 (workbook_at "uploads/base.xlsx" w') in
  populated_rows (sheet_at 0 leftover_base) = [1]
  ∧ cell_value (sheet_at 0 leftover_new) 2 2 = VNone
  ∧ (_execute_same_sheet_transfer world_leftover).2 = Ok tt
  ∧ populated_rows dst' = [1; 2]
  ∧ cell_value dst' 2 2 = VStr "old".
Proof. repeat (split; [vm_compute; reflexivity|]). vm_compute. reflexivity. Qed.

(** C2 as stated fails on a time of day: it is no [datetime], so it is
    copied as it is and not written as a dd/mm/yyyy text. The destination has
    one filled row and the source a header and one data row. *)
Lemma append_keeps_time_of_day :
  let w' := (_execute_same_sheet_transfer world_typed).1 in
  let dst' := sheet_at 0 (workbook_at "uploads/base.xlsx" w') in
  populated_rows (sheet_at 0 typed_base) = seq 1 1
  ∧ max_row (sheet_at 0 typed_new) = 1 + 1
  ∧ (_execute_same_sheet_transfer world_typed).2 = Ok tt
  ∧ cell_value (sheet_at 0 typed_new) 2 2 = VTime (Time 12 30 0)
  ∧ cell_value dst' 2 2 = VTime (Time 12 30 0).
Proof. repeat (split; [vm_compute; reflexivity|]). vm_compute. reflexivity. Qed.

(** A [datetime] before the year 1000 is not written as dd/mm/yyyy: the
    year comes without leading zeros. *)
Lemma append_year_below_1000 :
  let w' := (_execute_same_sheet_transfer world_typed).1 in
  let dst' := sheet_at 0 (workbook_at "uploads/base.xlsx" w') in
  cell_value (sheet_at 0 typed_new) 2 3 = VDateTime (DateTime 999 1 2 0 0 0)
  ∧ cell_value dst' 2 3 = VStr "02/01/999".
Proof. split; vm_compute; reflexivity. Qed.

(** The other values are not all unchanged in the file: a number is
    written with 16 significant digits, so 0.30000000000000004 is read back
    as 0.3 (bits 3FD3333333333333) and 2^53 + 1 as 2^53. *)
Lemma append_rounds_numbers :
  let w' := (_execute_same_sheet_transfer world_typed).1 in
  let dst' := sheet_at 0 (workbook_at "uploads/base.xlsx" w') in
  cell_value (sheet_at 0 typed_new) 2 4 = VFloat 4599075939470750516
  ∧ cell_value dst' 2 4 = VFloat 4599075939470750515
  ∧ cell_value (sheet_at 0 typed_new) 2 5 = VInt 9007199254740993
  ∧ cell_value dst' 2 5 = VInt 9007199254740992.
Proof. repeat (split; [vm_compute; reflexivity|]). vm_compute. reflexivity. Qed.

(** ** TransferToNewSheet *)

(** What [ws.append(row)] leaves in each cell. *)
Lemma cell_value_append (ws : Worksheet) (row : list value) (r c : nat) :
  cell_value (append ws row) r c
  = if decide (r = S (_current_row ws) ∧ 1 ≤ c ≤ length row)
    then default VNone (row !! (c - 1))
    else cell_value ws r c.
Proof.
  unfold append, cell_value. simpl.
  set (r0 := S (_current_row ws)).
  assert (∀ start (m : gmap (nat * nat) value),
    default VNone (foldl (λ m cv, <[(r0, cv.1) := cv.2]> m) m
                     (zip (seq start (length row)) row) !! (r, c))
    = if decide (r = r0 ∧ start ≤ c < start + length row)
      then default VNone (row !! (c - start))
      else default VNone (m !! (r, c))) as Hgen.
  { induction row as [|v row IH]; intros start m; simpl.
    - by rewrite decide_False by lia.
    - rewrite IH. simpl.
      destruct (decide (r = r0 ∧ c = start)) as [[-> ->]|Hne].
      + rewrite decide_False by lia. rewrite decide_True by lia.
        rewrite lookup_insert_eq. by replace (start - start) with 0 by lia.
      + rewrite lookup_insert_ne by (intros [= <- <-]; tauto).
        repeat case_decide; cases.
        by replace (c - start) with (S (c - S start)) by lia. }
  rewrite Hgen. repeat case_decide; cases.
Qed.

Lemma current_row_append (ws : Worksheet) (row : list value) :
  _current_row (append ws row) = S (_current_row ws).
Proof. reflexivity. Qed.

(** What a run of appends leaves in each cell. *)
Lemma cell_value_appends (ws : Worksheet) (rows : list (list value)) (r c : nat) :
  _current_row (foldl append ws rows) = _current_row ws + length rows
  ∧ cell_value (foldl append ws rows) r c
    = match rows !! (r - S (_current_row ws)) with
      | Some row =>
          if decide (_current_row ws < r ∧ 1 ≤ c ≤ length row)
          then default VNone (row !! (c - 1))
          else cell_value ws r c
      | None => cell_value ws r c
      end.
Proof.
  revert ws. induction rows as [|row rows IH]; intros ws; simpl.
  - split; [lia|done].
  - destruct (IH (append ws row)) as [Hcur Hval]. rewrite current_row_append in *.
    split; [lia|]. rewrite Hval.
    destruct (decide (r = S (_current_row ws))) as [->|Hne].
    + replace (S (_current_row ws) - S (S (_current_row ws))) with 0 by lia.
      replace (S (_current_row ws) - S (_current_row ws)) with 0 by lia. simpl.
      rewrite cell_value_append.
      destruct rows as [|row' rows']; simpl; repeat case_decide; cases.
    + destruct (decide (_current_row ws < r)) as [Hlt|Hge].
      * replace (r - S (_current_row ws)) with (S (r - S (S (_current_row ws)))) by lia.
        simpl. rewrite cell_value_append.
        destruct (rows !! _); repeat case_decide; cases.
      * replace (r - S (S (_current_row ws))) with 0 by lia.
        replace (r - S (_current_row ws)) with 0 by lia. simpl.
        rewrite cell_value_append.
        destruct rows as [|row' rows']; simpl; repeat case_decide; cases.
Qed.

Lemma row_values_length (ws : Worksheet) (r : nat) :
  length (row_values ws r) = max_column ws.
Proof. unfold row_values. by rewrite length_fmap, length_seq. Qed.

(** The new sheet after lines 175-177: the source sheet, every value
    formatted. *)
Lemma append_all_rows_cell (src new_sheet : Worksheet) (r c : nat) :
  _cells new_sheet = ∅ → _current_row new_sheet = 0 →
  1 ≤ r → 1 ≤ c →
  cell_value (append_all_rows (bind_cells src) new_sheet) r c
  = format_value (cell_value src r c).
Proof.
  intros Hempty Hcur Hr Hc.
  assert (Hnew : ∀ r c, cell_value new_sheet r c = VNone).
  { intros ??. unfold cell_value. by rewrite Hempty, lookup_empty. }
  assert (Hout : max_row src < r ∨ _cells src = ∅ → cell_value src r c = VNone).
  { intros Hcase.
    destruct (decide (cell_value src r c = VNone)) as [|Hv]; [done|].
    destruct Hcase as [Hlt|He].
    - apply cell_value_in_bounds in Hv. lia.
    - unfold cell_value in Hv. by rewrite He, lookup_empty in Hv. }
  unfold append_all_rows, iter_rows.
  change (_current_row (bind_cells src))
    with (if decide (_cells src = ∅) then 0 else max_row src).
  destruct (decide ((if decide (_cells src = ∅) then 0 else max_row src) = 0)) as [Hz|Hnz].
  { simpl. rewrite Hnew, Hout; [done|]. case_decide; [by right | left; lia]. }
  set (rows := iter_rows_from 1 (bind_cells src)).
  assert (foldl (λ ws row, append ws (format_value <$> row)) new_sheet rows
          = foldl append new_sheet ((λ row : list value, format_value <$> row) <$> rows)) as ->.
  { generalize new_sheet. induction rows as [|row rows IH]; intros ws; simpl; [done|].
    by rewrite IH. }
  destruct (cell_value_appends new_sheet ((λ row : list value, format_value <$> row) <$> rows) r c) as [_ ->].
  rewrite Hcur, Hnew. unfold rows, iter_rows_from.
  change (max_row (bind_cells src)) with (max_row src).
  rewrite !list_lookup_fmap.
  destruct (decide (r ≤ max_row src)) as [Hle|Hgt].
  - rewrite lookup_seq_lt by lia. simpl. replace (S (r - 1)) with r by lia.
    rewrite length_fmap, row_values_length.
    change (max_column (bind_cells src)) with (max_column src).
    rewrite list_lookup_fmap.
    pose proof (row_values_lookup (bind_cells src) r c Hc) as Hv.
    change (cell_value (bind_cells src) r c) with (cell_value src r c) in Hv.
    destruct (decide (0 < r ∧ 1 ≤ c ≤ max_column src)) as [Hin|Hin].
    + destruct (row_values (bind_cells src) r !! (c - 1)) as [v|] eqn:E;
        simpl in *; by rewrite <- Hv.
    + destruct (decide (cell_value src r c = VNone)) as [->|Hne]; [done|].
      apply cell_value_in_bounds in Hne. lia.
  - rewrite lookup_seq_ge by lia. simpl. rewrite Hout; [done|]. left. lia.
Qed.

Lemma title_append_all_rows (src ws : Worksheet) :
  title (append_all_rows src ws) = title ws.
Proof.
  unfold append_all_rows. generalize (iter_rows src). intros rows. revert ws.
  induction rows as [|row rows IH]; intros ws; simpl; [done|]. by rewrite IH.
Qed.

(** *** The title of the new sheet *)

Lemma avoid_duplicate_name_fresh (names : list string) (value : string) :
  Forall (λ n, lower n ≠ lower value) names →
  avoid_duplicate_name names value = value.
Proof.
  intros Hall. unfold avoid_duplicate_name.
  assert (existsb (λ n, String.eqb (lower n) (lower value)) names = false) as ->; [|done].
  induction Hall as [|n names Hn _ IH]; simpl; [done|].
  rewrite IH, orb_false_r. by apply String.eqb_neq.
Qed.

Lemma match_prefix_ci_lower (value n post : string) :
  lower n = lower value → match_prefix_ci value (n +:+ post) = Some post.
Proof.
  revert n. induction value as [|p value IH]; intros n Hl.
  - destruct n; [done|discriminate].
  - destruct n as [|c n]; [discriminate|].
    change (String c n +:+ post) with (String c (n +:+ post)). simpl in *.
    injection Hl as Hc Hl. rewrite Hc, Ascii.eqb_refl. by apply IH.
Qed.

(** A name that matches somewhere in the joined names is found. *)
Lemma findall_counts_found (value pre s : string) (fuel : nat) :
  String.length pre < fuel →
  is_Some (match_prefix_ci value s) →
  findall_counts fuel value (pre +:+ s) ≠ [].
Proof.
  revert fuel. induction pre as [|c pre IH]; intros fuel Hlen [rest Hm].
  - destruct fuel as [|fuel]; [simpl in Hlen; lia|].
    change ("" +:+ s) with s. cbn [findall_counts].
    rewrite Hm. by destruct (take_digits rest).
  - destruct fuel as [|fuel]; [simpl in Hlen; lia|].
    change (String c pre +:+ s) with (String c (pre +:+ s)).
    cbn [findall_counts].
    destruct (match_prefix_ci value (String c (pre +:+ s))) as [rest'|].
    + by destruct (take_digits rest').
    + apply IH; [simpl in Hlen; lia|eauto].
Qed.

Lemma string_app_assoc (a b c : string) : (a +:+ b) +:+ c = a +:+ (b +:+ c).
Proof.
  induction a as [|x a IH]; [done|].
  change (String x ((a +:+ b) +:+ c) = String x (a +:+ (b +:+ c))). by rewrite IH.
Qed.

Lemma string_app_length (a b : string) :
  String.length (a +:+ b) = String.length a + String.length b.
Proof.
  induction a as [|x a IH]; [done|].
  change (S (String.length (a +:+ b)) = S (String.length a + String.length b)).
  by rewrite IH.
Qed.

Lemma join_comma_elem (n : string) (names : list string) :
  n ∈ names → ∃ pre post, join_comma names = pre +:+ (n +:+ post).
Proof.
  induction 1 as [n names|n m names Hin IH].
  - exists "". destruct names as [|m names]; simpl.
    + exists "". change ("" +:+ (n +:+ "")) with (n +:+ "").
      clear. induction n as [|c n IH]; [done|].
      change (String c n = String c (n +:+ "")). by rewrite <- IH.
    + by eexists.
  - destruct IH as (pre & post & Heq).
    destruct names as [|m' names]; [by apply elem_of_nil in Hin|].
    exists (m +:+ "," +:+ pre), post.
    change (join_comma (m :: m' :: names))
      with (m +:+ "," +:+ join_comma (m' :: names)).
    rewrite Heq. by rewrite !string_app_assoc.
Qed.

Lemma pretty_N_go_nonempty (x : N) (s : string) :
  s ≠ "" → pretty_N_go x s ≠ "".
Proof.
  revert s. induction (N.lt_wf_0 x) as [x _ IH]; intros s Hs.
  destruct (decide (x = 0)%N) as [->|Hx]; [by rewrite pretty_N_go_0|].
  rewrite pretty_N_go_step by lia. apply IH; [apply N.div_lt; lia | done].
Qed.

Lemma pretty_S_nonempty (k : nat) : pretty (S k) ≠ "".
Proof.
  unfold pretty, pretty_nat, pretty, pretty_N.
  rewrite decide_False by lia. rewrite pretty_N_go_step by lia.
  by apply pretty_N_go_nonempty.
Qed.

(** A title in use, whatever its case, is given a number. *)
Lemma avoid_duplicate_name_taken (names : list string) (value : string) :
  Exists (λ n, lower n = lower value) names →
  ∃ k, avoid_duplicate_name names value = value +:+ pretty (S k).
Proof.
  intros Hex. unfold avoid_duplicate_name.
  apply Exists_exists in Hex as (n & Hin & Hl).
  assert (existsb (λ n, String.eqb (lower n) (lower value)) names = true) as ->.
  { apply existsb_exists. exists n. split; [by apply list_elem_of_In|].
    by apply String.eqb_eq. }
  destruct (join_comma_elem n names Hin) as (pre & post & Hj).
  pose proof (findall_counts_found value pre (n +:+ post)
                (S (String.length (join_comma names)))) as Hfound.
  rewrite <- Hj in Hfound.
  destruct (findall_counts _ value (join_comma names)) as [|count counts].
  - exfalso. apply Hfound;
      [rewrite Hj, string_app_length; lia
      |rewrite (match_prefix_ci_lower value n post Hl); eauto
      |done].
  - eauto.
Qed.

(** What the step does to the disk when both workbooks can be read and the
    destination can be written. *)
Lemma different_sheet_transfer_saves {lib : Openpyxl} (w : World) (base new_data : string)
    (source_workbook destination_workbook : Workbook) (src : Worksheet) :
  base_sheet_path (self w) = Some base →
  new_data_sheet_path (self w) = Some new_data →
  supported_format base = true →
  supported_format new_data = true →
  files (fs w) !! new_data = Some (Xlsx source_workbook) →
  files (fs w) !! base = Some (Xlsx destination_workbook) →
  active source_workbook = Some src →
  base ∉ unwritable (fs w) →
  _execute_different_sheet_transfer w
  = (set_fs (write_file base (Xlsx (stored
       {| _sheets := (bind_cells <$> _sheets destination_workbook)
                     ++ [append_all_rows (bind_cells src)
                           {| title := avoid_duplicate_name
                                         (sheetnames destination_workbook)
                                         NEW_SHEET_NAME;
                              _cells := ∅; _styled := ∅; _current_row := 0 |}];
          _active_sheet_index := _active_sheet_index destination_workbook |}))) w,
     Ok tt).
Proof.
  intros Hb Hn Hfb Hfn Hs Hd Has Hw.
  unfold _execute_different_sheet_transfer. unfold_py. simpl.
  rewrite Hn, Hb, Hfn, Hfb. simpl. rewrite Hs, Hd. unfold active in *. simpl.
  rewrite list_lookup_fmap, Has. simpl.
  rewrite bool_decide_eq_false_2 by done.
  unfold _add_sheet, sheetnames. simpl. rewrite <- list_fmap_compose.
  reflexivity.
Qed.

(** Sheet by sheet, the file holds the title and, cell by cell, what the
    library makes of the value. *)
Lemma stored_lookup {lib : Openpyxl} (wb : Workbook) (i : nat) (ws : Worksheet) :
  _sheets wb !! i = Some ws →
  ∃ ws', _sheets (stored wb) !! i = Some ws'
    ∧ title ws' = title ws
    ∧ ∀ r c, cell_value ws' r c = as_written (cell_value ws r c).
Proof.
  intros Hi. exists (stored_sheet ws). unfold stored. simpl.
  rewrite list_lookup_fmap, Hi. split; [done|]. split; [done|].
  intros r c. apply cell_value_stored_sheet.
Qed.

(** C3, amended: [_execute_different_sheet_transfer] adds one sheet at the
    end of the destination workbook and keeps the sheets that were there.
    The new sheet holds every row of the source's active sheet, header
    included, in place, a [datetime] as the text [strftime] makes of it and
    any other value as it is. It is titled "Transferred Data" when no sheet
    has that title, case ignored; when one has, the operation raises
    nothing: the title is "Transferred Data" followed by a number. The file
    holds every sheet of that workbook under its title, each value as the
    library writes it. *)
Theorem transfer_to_new_sheet {lib : Openpyxl} (w : World) (base new_data : string)
    (source_workbook destination_workbook : Workbook) (src : Worksheet) :
  base_sheet_path (self w) = Some base →
  new_data_sheet_path (self w) = Some new_data →
  supported_format base = true →
  supported_format new_data = true →
  files (fs w) !! new_data = Some (Xlsx source_workbook) →
  files (fs w) !! base = Some (Xlsx destination_workbook) →
  active source_workbook = Some src →
  base ∉ unwritable (fs w) →
  ∃ w' wb' new_sheet,
    _execute_different_sheet_transfer w = (w', Ok tt)
    ∧ files (fs w') !! base = Some (Xlsx (stored wb'))
    ∧ _sheets wb' = (bind_cells <$> _sheets destination_workbook) ++ [new_sheet]
    ∧ _active_sheet_index wb' = _active_sheet_index destination_workbook
    ∧ (∀ r c, 1 ≤ r → 1 ≤ c →
         cell_value new_sheet r c = format_value (cell_value src r c))
    ∧ (∀ d, format_value (VDateTime d) = VStr (strftime_dmy d))
    ∧ (∀ v, (∀ d, v ≠ VDateTime d) → format_value v = v)
    ∧ (Forall (λ n, lower n ≠ lower NEW_SHEET_NAME) (sheetnames destination_workbook) →
       title new_sheet = NEW_SHEET_NAME)
    ∧ (Exists (λ n, lower n = lower NEW_SHEET_NAME) (sheetnames destination_workbook) →
       title new_sheet ≠ NEW_SHEET_NAME
       ∧ ∃ k, title new_sheet = NEW_SHEET_NAME +:+ pretty (S k))
    ∧ sheetnames (stored wb') = sheetnames destination_workbook ++ [title new_sheet]
    ∧ (∀ i ws, _sheets wb' !! i = Some ws →
         ∃ ws', _sheets (stored wb') !! i = Some ws'
           ∧ title ws' = title ws
           ∧ ∀ r c, cell_value ws' r c = as_written (cell_value ws r c)).
Proof.
  intros Hb Hn Hfb Hfn Hs Hd Has Hw.
  set (new_ws := {| title := avoid_duplicate_name (sheetnames destination_workbook)
                               NEW_SHEET_NAME;
                    _cells := ∅; _styled := ∅; _current_row := 0 |}).
  set (wb' := {| _sheets := (bind_cells <$> _sheets destination_workbook)
                            ++ [append_all_rows (bind_cells src) new_ws];
                 _active_sheet_index := _active_sheet_index destination_workbook |}).
  exists (set_fs (write_file base (Xlsx (stored wb'))) w), wb',
    (append_all_rows (bind_cells src) new_ws).
  split; [by eapply different_sheet_transfer_saves|].
  split; [simpl; by rewrite lookup_insert_eq|].
  split; [done|]. split; [done|].
  split; [intros r c Hr Hc; by apply append_all_rows_cell|].
  split; [done|].
  split; [intros v Hv; destruct v; try done; by destruct (Hv d)|].
  rewrite title_append_all_rows. unfold new_ws. cbn [title]. split; [|split; [|split]].
  - apply avoid_duplicate_name_fresh.
  - intros Hex. apply avoid_duplicate_name_taken in Hex as [k Hk].
    split; [|eauto]. rewrite Hk. intros Heq.
    apply (pretty_S_nonempty k). unfold NEW_SHEET_NAME in Heq.
    unfold String.append in Heq. fold String.append in Heq.
    by inversion Heq.
  - rewrite sheetnames_stored. unfold sheetnames, wb'. cbn [_sheets].
    rewrite fmap_app, <- list_fmap_compose. simpl.
    by rewrite title_append_all_rows.
  - intros i ws. apply stored_lookup.
Qed.

Lemma transfer_to_new_sheet_witness :
  ∃ w' wb' new_sheet,
    _execute_different_sheet_transfer world_ready = (w', Ok tt)
    ∧ files (fs w') !! "uploads/base.xlsx" = Some (Xlsx (stored wb'))
    ∧ _sheets wb' = (bind_cells <$> _sheets base_book) ++ [new_sheet]
    ∧ title new_sheet = "Transferred Data"
    ∧ cell_value new_sheet 1 1 = VStr "name"
    ∧ cell_value new_sheet 2 2 = VStr "07/03/2024".
Proof.
  destruct (transfer_to_new_sheet world_ready "uploads/base.xlsx" "uploads/new.xlsx"
              new_book base_book
              (sheet_of "Sheet" [((1, 1), VStr "name"); ((1, 2), VStr "since");
                 ((2, 1), VStr "cy"); ((2, 2), VDateTime (DateTime 2024 3 7 0 0 0));
                 ((3, 1), VStr "di"); ((3, 2), VInt 7)]))
    as (w' & wb' & new_sheet & Hrun & Hfile & Hsheets & _ & Hcells & _ & _ & Hfresh & _).
  - reflexivity.
  - reflexivity.
  - vm_compute. reflexivity.
  - vm_compute. reflexivity.
  - vm_compute. reflexivity.
  - vm_compute. reflexivity.
  - reflexivity.
  - apply not_elem_of_empty.
  - exists w', wb', new_sheet. split; [exact Hrun|]. split; [exact Hfile|].
    split; [exact Hsheets|].
    split; [apply Hfresh; repeat constructor; vm_compute; discriminate|].
    split; [apply (Hcells 1 1); lia | apply (Hcells 2 2); lia].
Defined.

(** C3 as stated fails: run a second time on the same destination, the
    operation returns normally and adds the sheet "Transferred Data1", the
    sheet of the first run staying as it was. *)
Lemma second_transfer_does_not_raise :
  ∃ w1 w2 wb1 wb2,
    _execute_different_sheet_transfer world_ready = (w1, Ok tt)
    ∧ files (fs w1) !! "uploads/base.xlsx" = Some (Xlsx wb1)
    ∧ sheetnames wb1 = ["Sheet"; "Transferred Data"]
    ∧ _execute_different_sheet_transfer w1 = (w2, Ok tt)
    ∧ files (fs w2) !! "uploads/base.xlsx" = Some (Xlsx wb2)
    ∧ sheetnames wb2 = ["Sheet"; "Transferred Data"; "Transferred Data1"]
    ∧ _sheets wb2 !! 1 = _sheets wb1 !! 1.
Proof.
  set (w1 := (_execute_different_sheet_transfer world_ready).1).
  set (w2 := (_execute_different_sheet_transfer w1).1).
  exists w1, w2, (workbook_at "uploads/base.xlsx" w1), (workbook_at "uploads/base.xlsx" w2).
  repeat (split; [vm_compute; reflexivity|]). vm_compute. reflexivity.
Qed.

(** The new sheet takes a time of day as it is, writes a [datetime]
    before the year 1000 with a short year, and holds in the file the
    numbers as read back from 16 significant digits. *)
Lemma transfer_times_years_and_numbers :
  let w' := (_execute_different_sheet_transfer world_typed).1 in
  let new_sheet := sheet_at 1 (workbook_at "uploads/base.xlsx" w') in
  (_execute_different_sheet_transfer world_typed).2 = Ok tt
  ∧ title new_sheet = "Transferred Data"
  ∧ cell_value new_sheet 2 2 = VTime (Time 12 30 0)
  ∧ cell_value new_sheet 2 3 = VStr "02/01/999"
  ∧ cell_value new_sheet 2 4 = VFloat 4599075939470750515
  ∧ cell_value new_sheet 2 5 = VInt 9007199254740992.
Proof. repeat (split; [vm_compute; reflexivity|]). vm_compute. reflexivity. Qed.

(** ** The source file *)

(** C10, amended: when the source path is not the destination path, no
    step operation and no run of steps changes the file at the source path:
    the operations read it and save the destination workbook only, at the
    destination path. *)
Theorem steps_leave_source_file {lib : Openpyxl} (w : World) (source : string) :
  new_data_sheet_path (self w) = Some source →
  base_sheet_path (self w) ≠ Some source →
  (∀ f w' r, call_step f w = (w', r) →
     files (fs w') !! source = files (fs w) !! source)
  ∧ (∀ steps w' r, run_steps steps w = (w', r) →
       files (fs w') !! source = files (fs w) !! source).
Proof.
  intros _ Hne. split.
  - intros f w' r H. apply call_step_frame in H as (_ & _ & _ & _ & Hf). by apply Hf.
  - intros steps w' r H. apply run_steps_frame in H as (_ & _ & _ & Hf). by apply Hf.
Qed.

Lemma steps_leave_source_file_witness :
  files (fs (run_steps initial_steps world_ready).1) !! "uploads/new.xlsx"
  = files (fs world_ready) !! "uploads/new.xlsx".
Proof.
  destruct (steps_leave_source_file world_ready "uploads/new.xlsx") as [_ Hrun].
  - reflexivity.
  - discriminate.
  - apply (Hrun initial_steps _ (run_steps initial_steps world_ready).2).
    by destruct (run_steps initial_steps world_ready).
Defined.

(** C10 as stated fails: both parts uploaded under one name are saved at
    one path, which is then source and destination at once, and the append
    step rewrites the file there. *)
Lemma same_path_source_changes :
  ∃ w1 w2,
    upload_files secure_filename_ascii (DateTime 2024 3 7 9 5 59) same_name_form world_idle
    = (w1, Ok (Uploaded "data.xlsx" "data.xlsx"))
    ∧ new_data_sheet_path (self w1) = Some "uploads/data.xlsx"
    ∧ base_sheet_path (self w1) = Some "uploads/data.xlsx"
    ∧ call_step same_sheet_transfer_fn w1 = (w2, Ok tt)
    ∧ files (fs w2) !! "uploads/data.xlsx" ≠ files (fs w1) !! "uploads/data.xlsx".
Proof.
  set (w1 := (upload_files secure_filename_ascii (DateTime 2024 3 7 9 5 59)
                same_name_form world_idle).1).
  exists w1, (call_step same_sheet_transfer_fn w1).1.
  repeat (split; [vm_compute; reflexivity|]). vm_compute. discriminate.
Qed.

(** ** The backup taken on upload *)

Lemma upload_path_outside_backups (name : string) :
  String.prefix "backups/" (path_join UPLOAD_FOLDER name) = false.
Proof.
  unfold path_join. destruct name as [|c name]; [reflexivity|].
  simpl. destruct (is_slash c) eqn:E; [|reflexivity].
  apply Ascii.eqb_eq in E as ->. reflexivity.
Qed.

Lemma backup_path_spelling (now : datetime) (base_path : string) :
  backup_path now base_path
  = "backups/backup_" +:+ strftime_stamp now +:+ "_" +:+ basename base_path.
Proof. reflexivity. Qed.

Section Upload.

Variable secure_filename : string → string.

(** C8, amended: an upload that succeeds leaves, at the path
    backups/backup_<YYYYMMDD_HHMMSS>_<base name>, a file identical to the
    one at the destination path when [update_file_paths] runs, which is
    the upload just saved there, not what the path held before the upload;
    no other path of the backup folder changes. *)
Theorem upload_backs_up_new_file (now : datetime) (form : upload_form)
    (base_sheet new_data_sheet : FileStorage) (w w' : World) (b n : string) :
  baseSheet form = Some base_sheet →
  newDataSheet form = Some new_data_sheet →
  upload_files secure_filename now form w = (w', Ok (Uploaded b n)) →
  let base_path := path_join UPLOAD_FOLDER (secure_filename (filename base_sheet)) in
  let new_data_path :=
    path_join UPLOAD_FOLDER (secure_filename (filename new_data_sheet)) in
  let backup :=
    "backups/backup_" +:+ strftime_stamp now +:+ "_" +:+ basename base_path in
  let saved :=
    if decide (new_data_path = base_path) then stream new_data_sheet
    else stream base_sheet in
  base_sheet_path (self w') = Some base_path
  ∧ files (fs w') !! base_path = Some saved
  ∧ files (fs w') !! backup = Some saved
  ∧ ∀ p, String.prefix "backups/" p = true → p ≠ backup →
      files (fs w') !! p = files (fs w) !! p.
Proof.
  intros Hbase Hnew Hrun base_path new_data_path backup saved.
  assert (Hsaved : ∀ m : gmap string file_data,
    <[new_data_path := stream new_data_sheet]> (<[base_path := stream base_sheet]> m)
      !! base_path = Some saved).
  { intros m. unfold saved. case_decide as Heq.
    - rewrite Heq. by rewrite lookup_insert_eq.
    - rewrite lookup_insert_ne by done. by rewrite lookup_insert_eq. }
  assert (Houtside : ∀ p, String.prefix "backups/" p = true →
            p ≠ base_path ∧ p ≠ new_data_path).
  { intros p Hp. split; intros ->; unfold base_path, new_data_path in Hp;
      by rewrite upload_path_outside_backups in Hp. }
  unfold upload_files, update_file_paths, save_upload in Hrun.
  rewrite Hbase, Hnew in Hrun. unfold_py. simpl in Hrun.
  fold base_path new_data_path in Hrun.
  rewrite backup_path_spelling in Hrun. fold backup in Hrun.
  repeat (case_match; simplify_eq; simpl in * ).
  - match goal with
    | H : _ !! base_path = Some ?f |- _ => rewrite Hsaved in H; injection H as <-
    end.
    match goal with
    | H : (base_path =? backup)%string = false |- _ => apply String.eqb_neq in H
    end.
    split; [done|]. split; [by rewrite lookup_insert_ne|].
    split; [by rewrite lookup_insert_eq|].
    intros p Hp Hne. destruct (Houtside p Hp) as [? ?].
    by rewrite !lookup_insert_ne.
  - exfalso.
    match goal with
    | H : bool_decide (is_Some _) = false |- _ =>
        apply bool_decide_eq_false_1 in H; apply H
    end.
    rewrite Hsaved. eauto.
Qed.

End Upload.

Lemma upload_backs_up_new_file_witness :
  files (fs (upload_files secure_filename_ascii (DateTime 2024 3 7 9 5 59)
               replacing_form world_ready).1)
    !! "backups/backup_20240307_090559_base.xlsx"
  = Some (Xlsx blank_cell_base).
Proof.
  destruct (upload_backs_up_new_file secure_filename_ascii (DateTime 2024 3 7 9 5 59)
              replacing_form
              {| filename := "base.xlsx"; stream := Xlsx blank_cell_base |}
              {| filename := "new.xlsx"; stream := Xlsx new_book |}
              world_ready
              (upload_files secure_filename_ascii (DateTime 2024 3 7 9 5 59)
                 replacing_form world_ready).1
              "base.xlsx" "new.xlsx")
    as (_ & _ & Hbackup & _).
  - reflexivity.
  - reflexivity.
  - vm_compute. reflexivity.
  - exact Hbackup.
Defined.

(** C8 as stated fails: the upload replaces the file at the destination
    path before the backup is taken, so the backup holds the new upload and
    not the content the path held before. *)
Lemma backup_is_not_previous_content :
  ∃ w',
    upload_files secure_filename_ascii (DateTime 2024 3 7 9 5 59) replacing_form world_ready
    = (w', Ok (Uploaded "base.xlsx" "new.xlsx"))
    ∧ files (fs world_ready) !! "uploads/base.xlsx" = Some (Xlsx base_book)
    ∧ files (fs w') !! "backups/backup_20240307_090559_base.xlsx"
      = Some (Xlsx blank_cell_base)
    ∧ Xlsx blank_cell_base ≠ Xlsx base_book.
Proof.
  exists (upload_files secure_filename_ascii (DateTime 2024 3 7 9 5 59)
            replacing_form world_ready).1.
  repeat (split; [vm_compute; reflexivity|]). vm_compute. discriminate.
Qed.

(** ** The step list is always the three steps *)

Lemma sort_keys_snd (order : list string) (steps : list Step) (keyed : list (nat * Step)) :
  sort_keys order steps = Ok keyed → snd <$> keyed = steps.
Proof.
  revert keyed. induction steps as [|x steps IH]; intros keyed H; simpl in H.
  - by inversion H.
  - destruct (index (step_id x) order); [|done].
    destruct (sort_keys order steps) as [keyed'|]; [|done].
    inversion H; subst. rewrite fmap_cons. simpl. f_equal. by apply IH.
Qed.

Lemma sort_pipeline_steps_Permutation (order : list string) (w w' : World) (r : result unit) :
  sort_pipeline_steps order w = (w', r) →
  pipeline_steps (self w') ≡ₚ pipeline_steps (self w).
Proof.
  unfold sort_pipeline_steps. intros H.
  destruct (sort_keys order (pipeline_steps (self w))) as [keyed|e] eqn:Hk.
  - inversion H; subst. simpl. rewrite stable_sort_Permutation.
    by rewrite (sort_keys_snd _ _ _ Hk).
  - by inversion H; subst.
Qed.

(** An order that omits the id of a step makes the sort raise, and the
    steps stay as they were. *)
Lemma sort_omitting_step_raises (order : list string) (w : World) (x : Step) :
  x ∈ pipeline_steps (self w) → step_id x ∉ order →
  ∃ e, sort_pipeline_steps order w = (w, Raise e).
Proof.
  intros Hx Hno. unfold sort_pipeline_steps.
  destruct (sort_keys_Raise order _ x Hx Hno) as [e ->]. eauto.
Qed.

(** Every entry point of the manager leaves a permutation of the steps it
    found. *)
Lemma steps_preserved {lib : Openpyxl} (w w' : World) :
  (∀ now base new r, update_file_paths now base new w = (w', r) →
     pipeline_steps (self w') ≡ₚ pipeline_steps (self w))
  ∧ (∀ order r, execute_pipeline order w = (w', r) →
       pipeline_steps (self w') ≡ₚ pipeline_steps (self w))
  ∧ (∀ order r, update_pipeline_config order w = (w', r) →
       pipeline_steps (self w') ≡ₚ pipeline_steps (self w))
  ∧ (∀ r, _run_pipeline w = (w', r) →
       pipeline_steps (self w') = pipeline_steps (self w)).
Proof.
  split; [|split; [|split]].
  - intros now base new r H. unfold update_file_paths in H. unfold_py. simpl in H.
    repeat (case_match; simplify_eq; simpl in * ); reflexivity.
  - intros order r H. unfold execute_pipeline, first_step_id in H. unfold_py.
    simpl in H.
    destruct (negb _ || negb _).
    { destruct (pipeline_steps (self w)) eqn:E; inversion H; subst; simpl;
        by rewrite E. }
    destruct order as [[|id ids]|]; try (by inversion H; subst).
    destruct (sort_pipeline_steps (id :: ids) w) as [w1 [[]|e]] eqn:Hs;
      apply sort_pipeline_steps_Permutation in Hs; by inversion H; subst.
  - intros order r H. unfold update_pipeline_config in H. unfold_py. simpl in H.
    destruct (forallb _ order); [|by inversion H; subst].
    destruct (sort_pipeline_steps order w) as [w1 [[]|e]] eqn:Hs;
      apply sort_pipeline_steps_Permutation in Hs; by inversion H; subst.
  - intros r H. unfold _run_pipeline in H. unfold_py. simpl in H.
    destruct (run_steps _ w) as [w1 r1] eqn:Hrun.
    apply run_steps_frame in Hrun as (Hs & _).
    destruct r1 as [[]|e]; [|by inversion H; subst; rewrite Hs..].
    unfold copy_final_result in H. unfold_py. simpl in H.
    repeat (case_match; simplify_eq; simpl in * ); by rewrite Hs.
Qed.

(** ** The output path is never the destination path *)

Lemma has_slash_app (a b : string) :
  has_slash (a +:+ b) = has_slash a || has_slash b.
Proof.
  induction a as [|c a IH]; [done|].
  change (String c a +:+ b) with (String c (a +:+ b)). simpl.
  by rewrite IH, orb_assoc.
Qed.

Lemma basename_no_slash (p : string) : has_slash (basename p) = false.
Proof.
  induction p as [|c p IH]; [done|]. simpl.
  destruct (has_slash p) eqn:Hp; [done|].
  destruct (is_slash c) eqn:Hc; [done|]. simpl. by rewrite Hc, Hp.
Qed.

Lemma basename_after_slash (a b : string) :
  has_slash b = false → basename (a +:+ "/" +:+ b) = b.
Proof.
  intros Hb. induction a as [|c a IH].
  - change ("" +:+ "/" +:+ b) with (String "/" b). simpl. by rewrite Hb.
  - change (String c a +:+ "/" +:+ b) with (String c (a +:+ "/" +:+ b)).
    simpl. rewrite has_slash_app. simpl. by rewrite orb_true_r.
Qed.

Lemma basename_length (p : string) : String.length (basename p) ≤ String.length p.
Proof.
  induction p as [|c p IH]; [done|]. simpl.
  destruct (has_slash p); [lia|]. destruct (is_slash c); simpl; lia.
Qed.

Lemma output_path_not_base (base_path : string) :
  path_join OUTPUT_FOLDER ("processed_" +:+ basename base_path) ≠ base_path.
Proof.
  intros Heq.
  assert (path_join OUTPUT_FOLDER ("processed_" +:+ basename base_path)
          = "output" +:+ "/" +:+ ("processed_" +:+ basename base_path)) as Hj by reflexivity.
  rewrite Hj in Heq.
  assert (basename base_path = "processed_" +:+ basename base_path) as Hb.
  { rewrite <- Heq at 1. apply basename_after_slash.
    rewrite has_slash_app. by rewrite basename_no_slash. }
  apply (f_equal String.length) in Hb. rewrite string_app_length in Hb.
  simpl in Hb. lia.
Qed.

(** The paths [update_file_paths] stores: the output path is derived from
    the destination path and differs from it. *)
Lemma update_file_paths_stores (now : datetime) (base_path new_data_path : string)
    (w w' : World) :
  update_file_paths now base_path new_data_path w = (w', Ok tt) →
  base_sheet_path (self w') = Some base_path
  ∧ new_data_sheet_path (self w') = Some new_data_path
  ∧ output_file_path (self w')
    = Some (path_join OUTPUT_FOLDER ("processed_" +:+ basename base_path))
  ∧ output_file_path (self w') ≠ base_sheet_path (self w').
Proof.
  intros H. unfold update_file_paths in H. unfold_py. simpl in H.
  repeat (case_match; simplify_eq; simpl in * );
    (repeat split; [done..|]); intros [= Heq]; by apply output_path_not_base in Heq.
Qed.

(** ** A whole session *)

(** A base file of three rows and a source of a header and two rows are
    uploaded and the pipeline is run in the default order: the three steps
    start and complete, the result is copied to the output folder, and it
    holds five rows in its first sheet and the three source rows in a new
    sheet. *)
Example upload_and_run_events :
  ∃ w' wb sheet transferred,
    upload_and_run world_idle = (w', Ok tt)
    ∧ emitted w'
      = [step_start "different_sheet_transfer"; step_complete "different_sheet_transfer";
         step_start "excel_macro"; step_complete "excel_macro";
         step_start "same_sheet_transfer"; step_complete "same_sheet_transfer";
         pipeline_complete "processed_base.xlsx"]
    ∧ threads w' = 1
    ∧ files (fs w') !! "output/processed_base.xlsx" = Some (Xlsx wb)
    ∧ sheetnames wb = ["Sheet"; "Transferred Data"]
    ∧ _sheets wb !! 0 = Some sheet
    ∧ _sheets wb !! 1 = Some transferred
    ∧ populated_rows sheet = [1; 2; 3; 4; 5]
    ∧ populated_rows transferred = [1; 2; 3]
    ∧ cell_value sheet 4 2 = VStr "07/03/2024"
    ∧ files (fs w') !! "backups/backup_20240307_090559_base.xlsx" = Some (Xlsx base_book).
Proof.
  set (w' := (upload_and_run world_idle).1).
  set (wb := workbook_at "output/processed_base.xlsx" w').
  exists w', wb, (sheet_at 0 wb), (sheet_at 1 wb).
  repeat (split; [vm_compute; reflexivity|]). vm_compute. reflexivity.
Qed.

(** * Further properties *)

(** ** The scan and the row loop of AppendToSameSheet *)

(** X1: the scan of lines 147-149 ends on a row between 1 and one past the
    last row of the sheet; the first cell of that row is empty and the first
    cell of every row before it holds a value. *)
Theorem first_empty_row_least (ws : Worksheet) :
  1 ≤ first_empty_row ws ≤ S (max_row ws)
  ∧ cell_value ws (first_empty_row ws) 1 = VNone
  ∧ ∀ r, 1 ≤ r < first_empty_row ws → cell_value ws r 1 ≠ VNone.
Proof.
  destruct (scan_column1_stops ws) as (Hle & Hnone & Hbefore).
  split; [|done]. split; [done|].
  destruct (decide (first_empty_row ws ≤ S (max_row ws))) as [|Hgt]; [done|].
  assert (cell_value ws (S (max_row ws)) 1 ≠ VNone) as Hv by (apply Hbefore; lia).
  apply cell_value_in_bounds in Hv. lia.
Qed.



Lemma title_cell (ws : Worksheet) (r c : nat) (v : value) :
  title (cell ws r c v) = title ws.
Proof. unfold cell. destruct (is_none v), (_cells ws !! (r, c)); reflexivity. Qed.

Lemma title_write_row (ws : Worksheet) (r : nat) (row : list value) :
  title (write_row ws r row) = title ws.
Proof.
  unfold write_row. generalize (enumerate 1 row). intros l. revert ws.
  induction l as [|cv l IH]; intros ws; simpl; [done|].
  by rewrite IH, title_cell.
Qed.

Lemma title_append_data_rows (src dst : Worksheet) :
  title (append_data_rows src dst) = title dst.
Proof.
  unfold append_data_rows, write_rows. cbv zeta.
  generalize (first_empty_row dst) (iter_rows_from 2 src). intros n rows.
  revert dst n. induction rows as [|row rows IH]; intros dst n; simpl; [done|].
  by rewrite IH, title_write_row.
Qed.

(** ** The three operations on the disk *)



(** X4: [_execute_same_sheet_transfer] writes to the active sheet of the
    destination only: the file it saves has the same sheets in the same
    order under the same titles, the same active sheet, and every other
    sheet holds, cell by cell, what the library makes of the value the
    sheet held. *)
Theorem append_changes_active_sheet_only {lib : Openpyxl} (w : World) (base new_data : string)
    (source_workbook destination_workbook : Workbook) (src dst : Worksheet) :
  base_sheet_path (self w) = Some base →
  new_data_sheet_path (self w) = Some new_data →
  supported_format base = true →
  supported_format new_data = true →
  files (fs w) !! new_data = Some (Xlsx source_workbook) →
  files (fs w) !! base = Some (Xlsx destination_workbook) →
  active source_workbook = Some src →
  active destination_workbook = Some dst →
  base ∉ unwritable (fs w) →
  ∃ w' wb',
    _execute_same_sheet_transfer w = (w', Ok tt)
    ∧ files (fs w') !! base = Some (Xlsx wb')
    ∧ sheetnames wb' = sheetnames destination_workbook
    ∧ _active_sheet_index wb' = _active_sheet_index destination_workbook
    ∧ ∀ i ws, i ≠ _active_sheet_index destination_workbook →
        _sheets destination_workbook !! i = Some ws →
        ∃ ws', _sheets wb' !! i = Some ws'
          ∧ title ws' = title ws
          ∧ ∀ r c, cell_value ws' r c = as_written (cell_value ws r c).
Proof.
  intros Hb Hn Hfb Hfn Hs Hd Has Had Hw.
  eexists _, _.
  split; [by eapply same_sheet_transfer_saves|].
  split; [simpl; by rewrite lookup_insert_eq|].
  unfold active in Had. split; [|split; [done|]].
  - rewrite sheetnames_stored. unfold sheetnames. simpl.
    rewrite list_fmap_insert, title_append_data_rows.
    rewrite <- list_fmap_compose. apply list_insert_id.
    by rewrite list_lookup_fmap, Had.
  - intros i ws Hi Hws.
    match goal with
    | |- ∃ ws', _sheets (stored ?wb) !! i = Some ws' ∧ _ =>
        destruct (stored_lookup wb i (bind_cells ws)) as (ws' & Hl & Ht & Hc)
    end.
    { simpl. rewrite list_lookup_insert_ne by done. by rewrite list_lookup_fmap, Hws. }
    exists ws'. split; [exact Hl|]. split; [exact Ht|]. exact Hc.
Qed.


(** X6: an operation that raises has changed nothing: the disk, the
    manager and the events are as they were when it was called. *)
Theorem failed_step_changes_nothing {lib : Openpyxl} (f : step_fn) (w w' : World) (e : exn) :
  call_step f w = (w', Raise e) → w' = w.
Proof. apply call_step_raise. Qed.

Lemma failed_step_changes_nothing_witness :
  (call_step same_sheet_transfer_fn world_bad_source).1 = world_bad_source.
Proof.
  apply (failed_step_changes_nothing same_sheet_transfer_fn world_bad_source _
           (Exn BadZipFile "File is not a zip file")).
  vm_compute. reflexivity.
Defined.

(** X7: an operation that completes found a workbook at the destination
    path and leaves one there, with every sheet it had, under the same
    title and in the same place, and possibly one more. *)
Theorem completed_step_keeps_sheets {lib : Openpyxl} (f : step_fn) (w w' : World) :
  call_step f w = (w', Ok tt) →
  ∃ base wb wb',
    base_sheet_path (self w) = Some base
    ∧ files (fs w) !! base = Some (Xlsx wb)
    ∧ files (fs w') !! base = Some (Xlsx wb')
    ∧ sheetnames wb `prefix_of` sheetnames wb'.
Proof.
  intros H.
  destruct f; simpl in H;
    unfold _execute_different_sheet_transfer, _execute_excel_macro,
      _execute_same_sheet_transfer in H;
    unfold_py; simpl in H;
    repeat (case_match; simplify_eq; simpl in * );
    do 3 eexists; (split; [done|]); (split; [done|]);
    (split; [by rewrite lookup_insert_eq|]);
    rewrite sheetnames_stored; unfold sheetnames; simpl.
  - rewrite fmap_app, <- list_fmap_compose. by apply prefix_app_r.
  - by rewrite <- list_fmap_compose.
  - rewrite list_fmap_insert, title_append_data_rows, <- list_fmap_compose.
    rewrite list_insert_id; [done|].
    match goal with
    | H : active {| _sheets := bind_cells <$> _sheets wb; _active_sheet_index := _ |}
          = Some _ |- _ =>
        unfold active in H; simpl in H; rewrite list_lookup_fmap in H
    end.
    rewrite list_lookup_fmap.
    destruct (_sheets wb !! _active_sheet_index wb) as [ws|]; simpl in *; [|done].
    by simplify_eq.
Qed.

Lemma completed_step_keeps_sheets_witness :
  ∃ base wb wb',
    base_sheet_path (self world_ready) = Some base
    ∧ files (fs world_ready) !! base = Some (Xlsx wb)
    ∧ files (fs (call_step different_sheet_transfer_fn world_ready).1) !! base
      = Some (Xlsx wb')
    ∧ sheetnames wb `prefix_of` sheetnames wb'.
Proof.
  apply (completed_step_keeps_sheets different_sheet_transfer_fn world_ready).
  vm_compute. reflexivity.
Defined.

(** ** The runner, without interference *)

Lemma call_step_Ok {lib : Openpyxl} (f : step_fn) (w w' : World) :
  call_step f w = (w', Ok tt) →
  ∃ base wb', base_sheet_path (self w) = Some base
    ∧ files (fs w') !! base = Some (Xlsx wb').
Proof.
  intros H.
  destruct f; simpl in H;
    unfold _execute_different_sheet_transfer, _execute_excel_macro,
      _execute_same_sheet_transfer in H;
    unfold_py; simpl in H;
    repeat (case_match; simplify_eq; simpl in * );
    do 2 eexists; (split; [done|]); by rewrite lookup_insert_eq.
Qed.

(** When the loop has run through a list of at least one step, a workbook
    is at the destination path. *)
Lemma run_steps_Ok_file {lib : Openpyxl} (steps : list Step) (w w' : World) :
  steps ≠ [] → run_steps steps w = (w', Ok true) →
  ∃ base wb', base_sheet_path (self w) = Some base
    ∧ files (fs w') !! base = Some (Xlsx wb').
Proof.
  revert w. induction steps as [|step rest IH]; intros w Hne H; [done|].
  rewrite run_steps_cons in H.
  destruct (call_step _ _) as [w1 [[]|e]] eqn:Hc; [|by inversion H].
  pose proof (call_step_frame _ _ _ _ Hc) as (Hs & _).
  apply call_step_Ok in Hc as (base & wb1 & Hb & Hf). simpl in *.
  destruct rest as [|step' rest'].
  - inversion H; subst. simpl. eauto.
  - apply IH in H as (base' & wb' & Hb' & Hf'); [|done]. simpl in *.
    rewrite Hs, Hb in Hb'. simplify_eq. eauto.
Qed.

(** The events of the loop, by its outcome. *)
Lemma run_steps_shape {lib : Openpyxl} (steps : list Step) (w w' : World) (r : result bool) :
  run_steps steps w = (w', r) →
  (r = Ok true ∧ emitted w' = emitted w ++ completed_events steps)
  ∨ (r = Ok false ∧ ∃ pre s post msg,
       steps = pre ++ s :: post
       ∧ emitted w' = emitted w ++ completed_events pre
                        ++ [step_start (step_id s); step_error (step_id s) msg]).
Proof.
  revert w. induction steps as [|step rest IH]; intros w H.
  - inversion H; subst. left. simpl. by rewrite app_nil_r.
  - rewrite run_steps_cons in H.
    destruct (call_step _ _) as [w1 [[]|e]] eqn:Hc;
      apply call_step_frame in Hc as (_ & He & _); simpl in He.
    + apply IH in H as [[-> Hev]|(-> & pre & s & post & msg & -> & Hev)];
        simpl in Hev; rewrite He in Hev; [left|right]; (split; [done|]).
      * rewrite Hev. simpl. by rewrite <- !app_assoc.
      * exists (step :: pre), s, post, msg. split; [done|].
        rewrite Hev. simpl. by rewrite <- !app_assoc.
    + inversion H; subst. right. split; [done|].
      exists [], step, rest, (exn_msg e). split; [done|].
      simpl. rewrite He. by rewrite <- !app_assoc.
Qed.

(** X8: a run over at least one step never raises, and its events have one
    of three shapes: the events of every step completing followed by
    [pipeline_complete]; the same followed by a [pipeline_error] that
    reports a failed copy; or the events of the steps completed so far
    followed by the [step_start] and the [step_error] of the step that
    raised. The [pipeline_error] of a missing destination file does not
    occur. *)
Theorem run_trace_shape {lib : Openpyxl} (w w' : World) (r : result unit) :
  pipeline_steps (self w) ≠ [] →
  _run_pipeline w = (w', r) →
  r = Ok tt
  ∧ ((∃ output, emitted w' = emitted w ++ completed_events (pipeline_steps (self w))
                               ++ [pipeline_complete output])
     ∨ (∃ msg, emitted w' = emitted w ++ completed_events (pipeline_steps (self w))
                 ++ [pipeline_error ("Failed to generate output file: " +:+ msg)])
     ∨ (∃ pre s post msg,
          pipeline_steps (self w) = pre ++ s :: post
          ∧ emitted w' = emitted w ++ completed_events pre
                           ++ [step_start (step_id s); step_error (step_id s) msg])).
Proof.
  intros Hne H. unfold _run_pipeline in H. unfold_py. simpl in H.
  destruct (run_steps _ w) as [w1 r1] eqn:Hrun.
  pose proof (run_steps_frame _ _ _ _ Hrun) as (Hs & _).
  destruct (run_steps_shape _ _ _ _ Hrun)
    as [[-> Hev]|(-> & pre & s & post & msg & Hsteps & Hev)].
  - destruct (run_steps_Ok_file _ _ _ Hne Hrun) as (base & wb' & Hb & Hf).
    unfold copy_final_result in H. unfold_py. simpl in H.
    rewrite Hs, Hb in H. simpl in H. rewrite Hf in H. simpl in H.
    repeat (case_match; simplify_eq; simpl in * );
      (split; [done|]); rewrite Hev, <- app_assoc; eauto.
  - inversion H; subst. split; [done|]. right. right. eauto 10.
Qed.

Lemma run_trace_shape_witness :
  (_run_pipeline world_ready).2 = Ok tt.
Proof.
  destruct (run_trace_shape world_ready (_run_pipeline world_ready).1
              (_run_pipeline world_ready).2) as [Hr _].
  - discriminate.
  - by destruct (_run_pipeline world_ready).
  - exact Hr.
Defined.

(** X9: when every step of a run completes and the output path is another
    path than the destination and can be written, the run ends with
    [pipeline_complete] carrying the base name of the output path, and the
    output file is the destination workbook as the last step saved it. *)
Theorem completed_run_output {lib : Openpyxl} (w w1 : World) (output : string) :
  pipeline_steps (self w) ≠ [] →
  run_steps (pipeline_steps (self w)) w = (w1, Ok true) →
  output_file_path (self w) = Some output →
  base_sheet_path (self w) ≠ Some output →
  output ∉ unwritable (fs w) →
  ∃ w' base wb,
    _run_pipeline w = (w', Ok tt)
    ∧ emitted w' = emitted w ++ completed_events (pipeline_steps (self w))
                     ++ [pipeline_complete (basename output)]
    ∧ base_sheet_path (self w) = Some base
    ∧ files (fs w1) !! base = Some (Xlsx wb)
    ∧ files (fs w') !! base = Some (Xlsx wb)
    ∧ files (fs w') !! output = Some (Xlsx wb).
Proof.
  intros Hne Hrun Hout Hdiff Hw.
  pose proof (run_steps_frame _ _ _ _ Hrun) as (Hs & _ & Hu & _).
  pose proof (run_steps_completed _ _ _ Hrun) as Hev.
  destruct (run_steps_Ok_file _ _ _ Hne Hrun) as (base & wb & Hb & Hf).
  assert (base ≠ output) as Hbo by congruence.
  eexists _, base, wb. split.
  { unfold _run_pipeline. unfold_py. simpl. rewrite Hrun.
    unfold copy_final_result. unfold_py. simpl.
    rewrite Hs, Hb. simpl. rewrite Hf. simpl. rewrite Hs, Hout. simpl.
    rewrite Hf. apply String.eqb_neq in Hbo. rewrite Hbo.
    rewrite bool_decide_eq_false_2 by (by rewrite Hu). reflexivity. }
  simpl. rewrite Hev, <- app_assoc.
  split; [done|]. split; [done|]. split; [done|].
  split; [by rewrite lookup_insert_ne|by rewrite lookup_insert_eq].
Qed.

Lemma completed_run_output_witness :
  ∃ w' base wb,
    _run_pipeline world_ready = (w', Ok tt)
    ∧ emitted w' = emitted world_ready ++ completed_events initial_steps
                     ++ [pipeline_complete "processed_base.xlsx"]
    ∧ base_sheet_path (self world_ready) = Some base
    ∧ files (fs (run_steps initial_steps world_ready).1) !! base = Some (Xlsx wb)
    ∧ files (fs w') !! base = Some (Xlsx wb)
    ∧ files (fs w') !! "output/processed_base.xlsx" = Some (Xlsx wb).
Proof.
  apply (completed_run_output world_ready (run_steps initial_steps world_ready).1
           "output/processed_base.xlsx").
  - discriminate.
  - vm_compute. reflexivity.
  - reflexivity.
  - discriminate.
  - apply not_elem_of_empty.
Defined.

(** ** Path state *)

Lemma digit_not_slash (n : nat) : is_slash (digit n) = false.
Proof.
  unfold digit. assert (n mod 10 < 10) as Hlt by (apply Nat.mod_upper_bound; lia).
  destruct (n mod 10) as [|[|[|[|[|[|[|[|[|[|k]]]]]]]]]]; try reflexivity. lia.
Qed.

Lemma strftime_Y_no_slash (n : nat) : has_slash (strftime_Y n) = false.
Proof.
  unfold strftime_Y, four_digits, two_digits.
  repeat case_match; cbn [has_slash]; by rewrite !digit_not_slash.
Qed.

Lemma stamp_no_slash (now : datetime) : has_slash (strftime_stamp now) = false.
Proof.
  unfold strftime_stamp. rewrite !has_slash_app, strftime_Y_no_slash.
  unfold two_digits. cbn [has_slash].
  by rewrite !digit_not_slash.
Qed.

Lemma backup_filename_no_slash (now : datetime) (base_path : string) :
  has_slash (backup_filename now base_path) = false.
Proof.
  unfold backup_filename. rewrite !has_slash_app, stamp_no_slash, basename_no_slash.
  reflexivity.
Qed.

Lemma basename_backup_path (now : datetime) (base_path : string) :
  basename (backup_path now base_path) = backup_filename now base_path.
Proof.
  change (backup_path now base_path)
    with ("backups" +:+ "/" +:+ backup_filename now base_path).
  apply basename_after_slash, backup_filename_no_slash.
Qed.

(** The backup path is never the path of the file it copies. *)
Lemma backup_path_not_base (now : datetime) (base_path : string) :
  backup_path now base_path ≠ base_path.
Proof.
  intros Heq. pose proof (basename_backup_path now base_path) as Hb.
  rewrite Heq in Hb. apply (f_equal String.length) in Hb.
  unfold backup_filename in Hb. rewrite !string_app_length in Hb. simpl in Hb. lia.
Qed.

Lemma digit_eq (a b : nat) : digit a = digit b → a mod 10 = b mod 10.
Proof.
  unfold digit. intros H. apply (f_equal nat_of_ascii) in H.
  assert (a mod 10 < 10) by (apply Nat.mod_upper_bound; lia).
  assert (b mod 10 < 10) by (apply Nat.mod_upper_bound; lia).
  rewrite !nat_ascii_embedding in H by lia. lia.
Qed.

Lemma two_digits_inj (a b : nat) :
  a < 100 → b < 100 → two_digits a = two_digits b → a = b.
Proof.
  intros Ha Hb H. unfold two_digits in H. injection H as H1 H2.
  apply digit_eq in H1, H2.
  change ((a / 10) mod 10 = (b / 10) mod 10) in H1.
  pose proof (Nat.div_mod_eq a 10). pose proof (Nat.div_mod_eq b 10).
  assert (a / 10 < 10) by (apply Nat.Div0.div_lt_upper_bound; lia).
  assert (b / 10 < 10) by (apply Nat.Div0.div_lt_upper_bound; lia).
  rewrite !Nat.mod_small in H1 by done. lia.
Qed.

Lemma four_digits_inj (a b : nat) :
  a < 100 * 100 → b < 100 * 100 → four_digits a = four_digits b → a = b.
Proof.
  intros Ha Hb H. unfold four_digits in H. injection H as H1 H2 H3 H4.
  apply digit_eq in H1, H2, H3, H4.
  change ((a / 1000) mod 10 = (b / 1000) mod 10) in H1.
  change ((a / 100) mod 10 = (b / 100) mod 10) in H2.
  change ((a / 10) mod 10 = (b / 10) mod 10) in H3.
  assert (Hsplit : ∀ n, n < 100 * 100 →
            n = 1000 * (n / 1000) + 100 * ((n / 100) mod 10)
                + 10 * ((n / 10) mod 10) + n mod 10 ∧ n / 1000 < 10).
  { intros n Hn.
    pose proof (Nat.div_mod_eq n 10). pose proof (Nat.div_mod_eq (n / 10) 10).
    pose proof (Nat.div_mod_eq (n / 10 / 10) 10).
    rewrite !Nat.Div0.div_div in *. change (10 * 10) with 100 in *.
    change (100 * 10) with 1000 in *.
    split; [lia|]. apply Nat.Div0.div_lt_upper_bound. lia. }
  destruct (Hsplit a Ha) as [Ea La], (Hsplit b Hb) as [Eb Lb].
  rewrite !Nat.mod_small in H1 by done. lia.
Qed.

Lemma string_app_inj (s1 s2 t1 t2 : string) :
  String.length s1 = String.length s2 →
  s1 +:+ t1 = s2 +:+ t2 → s1 = s2 ∧ t1 = t2.
Proof.
  revert s2. induction s1 as [|c1 s1 IH]; intros [|c2 s2] Hlen Heq;
    try discriminate Hlen; [done|].
  change (String c1 (s1 +:+ t1) = String c2 (s2 +:+ t2)) in Heq.
  injection Heq as -> Heq. injection Hlen as Hlen.
  destruct (IH s2 Hlen Heq) as [-> ->]. done.
Qed.

(** From the year 1000 on [%Y] gives four digits. *)
Lemma strftime_Y_four_digits (n : nat) : 1000 ≤ n → strftime_Y n = four_digits n.
Proof. intros Hn. unfold strftime_Y. by rewrite (proj2 (Nat.leb_le 1000 n) Hn). Qed.

Lemma strftime_stamp_length (d : datetime) :
  valid_datetime d → String.length (strftime_stamp d) = 15.
Proof.
  intros (Hy & _). unfold strftime_stamp. rewrite strftime_Y_four_digits by lia.
  reflexivity.
Qed.

(** The stamp tells the second it was taken in. *)
Lemma strftime_stamp_inj (d1 d2 : datetime) :
  valid_datetime d1 → valid_datetime d2 →
  strftime_stamp d1 = strftime_stamp d2 → d1 = d2.
Proof.
  intros (Hy1 & Hm1 & Hd1 & Hh1 & Hmi1 & Hs1) (Hy2 & Hm2 & Hd2 & Hh2 & Hmi2 & Hs2) H.
  destruct d1 as [y1 m1 dd1 h1 mi1 s1], d2 as [y2 m2 dd2 h2 mi2 s2].
  unfold strftime_stamp in H. cbn [year month day hour minute second] in *.
  rewrite !strftime_Y_four_digits in H by lia.
  apply string_app_inj in H as [Ey H]; [|reflexivity].
  apply string_app_inj in H as [Em H]; [|reflexivity].
  apply string_app_inj in H as [Ed H]; [|reflexivity].
  apply string_app_inj in H as [_ H]; [|reflexivity].
  apply string_app_inj in H as [Eh H]; [|reflexivity].
  apply string_app_inj in H as [Emi Es]; [|reflexivity].
  apply four_digits_inj in Ey; [|lia..].
  apply two_digits_inj in Em, Ed, Eh, Emi, Es; try lia.
  by subst.
Qed.

(** X10: with no file at the base path, [update_file_paths] makes no
    backup: it stores the three paths and leaves the disk as it is. *)
Theorem update_without_file (now : datetime) (base_path new_data_path : string)
    (w : World) :
  files (fs w) !! base_path = None →
  ∃ w', update_file_paths now base_path new_data_path w = (w', Ok tt)
    ∧ fs w' = fs w ∧ emitted w' = emitted w ∧ threads w' = threads w
    ∧ pipeline_steps (self w') = pipeline_steps (self w)
    ∧ base_sheet_path (self w') = Some base_path
    ∧ new_data_sheet_path (self w') = Some new_data_path.
Proof.
  intros Hno. unfold update_file_paths. unfold_py. simpl.
  rewrite bool_decide_eq_false_2 by (rewrite Hno; by intros [? ?]).
  eexists. split; [reflexivity|]. done.
Qed.

Lemma update_without_file_witness :
  fs (update_file_paths (DateTime 2024 3 7 9 5 59) "uploads/base.xlsx"
        "uploads/new.xlsx" world_idle).1
  = fs world_idle.
Proof.
  destruct (update_without_file (DateTime 2024 3 7 9 5 59) "uploads/base.xlsx"
              "uploads/new.xlsx" world_idle) as (w' & Hrun & Hfs & _).
  - reflexivity.
  - by rewrite Hrun.
Defined.

(** X11: the paths a successful [update_file_paths] stores: the base and
    new data paths as given, and an output path that is another path than
    the base path, lies in the output folder under the base name prefixed
    with "processed_", and is found again by joining the output folder and
    its own base name, the name [pipeline_complete] carries. *)
Theorem stored_output_path (now : datetime) (base_path new_data_path : string)
    (w w' : World) :
  update_file_paths now base_path new_data_path w = (w', Ok tt) →
  ∃ output,
    output_file_path (self w') = Some output
    ∧ base_sheet_path (self w') = Some base_path
    ∧ new_data_sheet_path (self w') = Some new_data_path
    ∧ output ≠ base_path
    ∧ basename output = "processed_" +:+ basename base_path
    ∧ path_join OUTPUT_FOLDER (basename output) = output.
Proof.
  intros H. apply update_file_paths_stores in H as (Hb & Hn & Ho & Hne).
  exists (path_join OUTPUT_FOLDER ("processed_" +:+ basename base_path)).
  split; [done|]. split; [done|]. split; [done|].
  split; [apply output_path_not_base|].
  assert (basename (path_join OUTPUT_FOLDER ("processed_" +:+ basename base_path))
          = "processed_" +:+ basename base_path) as Hbn.
  { change (path_join OUTPUT_FOLDER ("processed_" +:+ basename base_path))
      with ("output" +:+ "/" +:+ ("processed_" +:+ basename base_path)).
    apply basename_after_slash. rewrite has_slash_app. by rewrite basename_no_slash. }
  split; [done|]. by rewrite Hbn.
Qed.

Lemma stored_output_path_witness :
  ∃ output,
    output_file_path (self (update_file_paths (DateTime 2024 3 7 9 5 59)
                              "uploads/base.xlsx" "uploads/new.xlsx" world_ready).1)
    = Some output
    ∧ path_join OUTPUT_FOLDER (basename output) = output.
Proof.
  destruct (stored_output_path (DateTime 2024 3 7 9 5 59) "uploads/base.xlsx"
              "uploads/new.xlsx" world_ready
              (update_file_paths (DateTime 2024 3 7 9 5 59) "uploads/base.xlsx"
                 "uploads/new.xlsx" world_ready).1)
    as (output & Ho & _ & _ & _ & _ & Hj).
  - vm_compute. reflexivity.
  - exists output. split; [exact Ho | exact Hj].
Defined.

(** X12: with a file at the base path and a backup path that can be
    written, [update_file_paths] succeeds: the disk gains the backup, a copy
    of that file, every other file is as it was, the base file included, and
    the three paths are stored. The copy never fails for being its own
    target: the backup path is another path than the base path. *)
Theorem update_backs_up_file (now : datetime) (base_path new_data_path : string)
    (w : World) (d : file_data) :
  files (fs w) !! base_path = Some d →
  backup_path now base_path ∉ unwritable (fs w) →
  backup_path now base_path ≠ base_path
  ∧ ∃ w', update_file_paths now base_path new_data_path w = (w', Ok tt)
      ∧ files (fs w') = <[backup_path now base_path := d]> (files (fs w))
      ∧ files (fs w') !! base_path = Some d
      ∧ unwritable (fs w') = unwritable (fs w)
      ∧ base_sheet_path (self w') = Some base_path
      ∧ new_data_sheet_path (self w') = Some new_data_path.
Proof.
  intros Hd Hw. pose proof (backup_path_not_base now base_path) as Hne.
  split; [done|].
  unfold update_file_paths. unfold_py. simpl.
  rewrite bool_decide_eq_true_2 by (rewrite Hd; eauto).
  rewrite Hd.
  assert ((base_path =? backup_path now base_path)%string = false) as ->.
  { apply String.eqb_neq. congruence. }
  rewrite bool_decide_eq_false_2 by done.
  eexists. split; [reflexivity|]. simpl.
  split; [done|]. split; [by rewrite lookup_insert_ne|]. done.
Qed.

Lemma update_backs_up_file_witness :
  files (fs (update_file_paths (DateTime 2024 3 7 9 5 59) "uploads/base.xlsx"
               "uploads/new.xlsx" world_ready).1)
    !! "backups/backup_20240307_090559_base.xlsx"
  = Some (Xlsx base_book).
Proof.
  destruct (update_backs_up_file (DateTime 2024 3 7 9 5 59) "uploads/base.xlsx"
              "uploads/new.xlsx" world_ready (Xlsx base_book))
    as (_ & w' & Hrun & Hfiles & _).
  - vm_compute. reflexivity.
  - apply not_elem_of_empty.
  - rewrite Hrun. simpl. rewrite Hfiles.
    change (backup_path (DateTime 2024 3 7 9 5 59) "uploads/base.xlsx")
      with "backups/backup_20240307_090559_base.xlsx".
    apply lookup_insert_eq.
Defined.

(** X13: backups of one base path taken at two different seconds are
    written to two different paths, so neither overwrites the other; two
    taken within one second share their path. *)
Theorem backup_paths_by_second (now1 now2 : datetime) (base_path : string) :
  valid_datetime now1 → valid_datetime now2 →
  backup_path now1 base_path = backup_path now2 base_path ↔ now1 = now2.
Proof.
  intros H1 H2. split; [|by intros ->].
  intros Heq. apply strftime_stamp_inj; [done..|].
  apply (f_equal basename) in Heq. rewrite !basename_backup_path in Heq.
  unfold backup_filename in Heq.
  apply string_app_inj in Heq as [_ Heq]; [|reflexivity].
  apply string_app_inj in Heq as [Heq _]; [done|].
  by rewrite !strftime_stamp_length.
Qed.

Lemma backup_paths_by_second_witness :
  backup_path (DateTime 2024 3 7 9 5 59) "uploads/base.xlsx"
  = backup_path (DateTime 2024 3 7 9 6 0) "uploads/base.xlsx"
  ↔ DateTime 2024 3 7 9 5 59 = DateTime 2024 3 7 9 6 0.
Proof.
  apply (backup_paths_by_second (DateTime 2024 3 7 9 5 59) (DateTime 2024 3 7 9 6 0)
           "uploads/base.xlsx"); unfold valid_datetime; simpl; lia.
Defined.

(** ** The upload handler *)

Lemma has_dot_app (a b : string) : has_dot (a +:+ b) = has_dot a || has_dot b.
Proof.
  induction a as [|c a IH]; [done|].
  change (String c a +:+ b) with (String c (a +:+ b)). simpl.
  by rewrite IH, orb_assoc.
Qed.

Lemma after_last_dot_app (a b : string) :
  has_dot b = false → after_last_dot (a +:+ "." +:+ b) = b.
Proof.
  intros Hb. induction a as [|c a IH].
  - change ("" +:+ "." +:+ b) with (String "." b). simpl. by rewrite Hb.
  - change (String c a +:+ "." +:+ b) with (String c (a +:+ "." +:+ b)).
    simpl. rewrite has_dot_app. simpl. by rewrite orb_true_r.
Qed.

(** X14: [allowed_file] looks at what follows the last dot only, without
    regard to case: a name without a dot is refused, and a name that ends in
    a dot and an extension is accepted exactly when the extension, in lower
    case, is xlsx or xls. *)
Theorem allowed_file_by_extension (name ext : string) :
  has_dot ext = false →
  allowed_file ext = false
  ∧ (allowed_file (name +:+ "." +:+ ext) = true
     ↔ lower ext = "xlsx" ∨ lower ext = "xls").
Proof.
  intros Hext. unfold allowed_file. split; [by rewrite Hext|].
  rewrite has_dot_app, after_last_dot_app by done.
  change (has_dot ("." +:+ ext)) with true. rewrite orb_true_r. simpl.
  rewrite orb_false_r, orb_true_iff, !String.eqb_eq. naive_solver.
Qed.

Lemma allowed_file_by_extension_witness :
  allowed_file "XLSX" = false
  ∧ (allowed_file ("report.2024" +:+ "." +:+ "XLSX") = true
     ↔ lower "XLSX" = "xlsx" ∨ lower "XLSX" = "xls").
Proof. apply (allowed_file_by_extension "report.2024" "XLSX"). reflexivity. Defined.

Section UploadOutcomes.

Variable secure_filename : string → string.

(** X15: an upload that lacks a part, names a part with the empty string or
    carries a name that [allowed_file] refuses is answered with status 400,
    and nothing is saved or stored: the world is as it was. *)
Theorem upload_refused (now : datetime) (form : upload_form) (w : World) :
  match baseSheet form, newDataSheet form with
  | Some base_sheet, Some new_data_sheet =>
      filename base_sheet = "" ∨ filename new_data_sheet = ""
      ∨ allowed_file (filename base_sheet) = false
      ∨ allowed_file (filename new_data_sheet) = false
  | _, _ => True
  end →
  ∃ error, upload_files secure_filename now form w = (w, Ok (Error 400 error)).
Proof.
  intros H. unfold upload_files. unfold_py. simpl.
  destruct (baseSheet form) as [base_sheet|], (newDataSheet form) as [new_data_sheet|];
    try (eexists; reflexivity).
  destruct (String.eqb_spec (filename base_sheet) "") as [->|Hb];
    [eexists; reflexivity|].
  destruct (String.eqb_spec (filename new_data_sheet) "") as [->|Hn];
    [eexists; reflexivity|].
  simpl. destruct H as [?|[?|[Ha|Ha]]]; try done; rewrite Ha; simpl;
    rewrite ?andb_false_r; eexists; reflexivity.
Qed.

(** X16: when both parts are saved and the backup then fails, the handler
    answers with status 500 and stores no path, but the two uploaded files
    stay on disk in place of what was there. *)
Theorem upload_saved_then_backup_fails (now : datetime) (form : upload_form)
    (base_sheet new_data_sheet : FileStorage) (w : World) :
  baseSheet form = Some base_sheet →
  newDataSheet form = Some new_data_sheet →
  filename base_sheet ≠ "" → filename new_data_sheet ≠ "" →
  allowed_file (filename base_sheet) = true →
  allowed_file (filename new_data_sheet) = true →
  let base_path := path_join UPLOAD_FOLDER (secure_filename (filename base_sheet)) in
  let new_data_path :=
    path_join UPLOAD_FOLDER (secure_filename (filename new_data_sheet)) in
  base_path ∉ unwritable (fs w) →
  new_data_path ∉ unwritable (fs w) →
  backup_path now base_path ∈ unwritable (fs w) →
  ∃ w' error,
    upload_files secure_filename now form w = (w', Ok (Error 500 error))
    ∧ self w' = self w
    ∧ files (fs w')
      = <[new_data_path := stream new_data_sheet]>
          (<[base_path := stream base_sheet]> (files (fs w))).
Proof.
  intros Hbase Hnew Hb Hn Hab Han base_path new_data_path Hwb Hwn Hlock.
  unfold upload_files, update_file_paths, save_upload. rewrite Hbase, Hnew.
  unfold_py. simpl. fold base_path new_data_path.
  apply String.eqb_neq in Hb, Hn. rewrite Hb, Hn, Hab, Han. simpl.
  rewrite !bool_decide_eq_false_2 by done. simpl.
  assert (is_Some (<[new_data_path := stream new_data_sheet]>
                     (<[base_path := stream base_sheet]> (files (fs w))) !! base_path))
    as [d Hd].
  { destruct (decide (new_data_path = base_path)) as [->|?].
    - rewrite lookup_insert_eq. eauto.
    - rewrite lookup_insert_ne, lookup_insert_eq by done. eauto. }
  rewrite bool_decide_eq_true_2 by (rewrite Hd; eauto).
  cbn [files fs unwritable set_fs write_file].
  rewrite Hd.
  assert ((base_path =? backup_path now base_path)%string = false) as ->.
  { apply String.eqb_neq. intros Heq. by apply (backup_path_not_base now base_path). }
  rewrite bool_decide_eq_true_2 by done.
  do 2 eexists. split; [reflexivity|]. done.
Qed.

(** The upload paths are never the empty string. *)
Lemma upload_path_truthy (name : string) :
  truthy (Some (path_join UPLOAD_FOLDER name)) = true.
Proof.
  unfold path_join. destruct name as [|c name]; [reflexivity|].
  simpl. by destruct (is_slash c).
Qed.

(** X17: after an upload answered with success, a start request without a
    step order is not refused: it emits nothing and starts one thread. *)
Theorem start_after_upload (now : datetime) (form : upload_form) (w w1 : World)
    (b n : string) :
  upload_files secure_filename now form w = (w1, Ok (Uploaded b n)) →
  execute_pipeline None w1
  = ({| self := self w1; fs := fs w1; emitted := emitted w1;
        threads := S (threads w1) |}, Ok tt).
Proof.
  intros H.
  assert (∃ x y, base_sheet_path (self w1) = Some (path_join UPLOAD_FOLDER x)
                 ∧ new_data_sheet_path (self w1) = Some (path_join UPLOAD_FOLDER y))
    as (x & y & Hx & Hy).
  { unfold upload_files, update_file_paths, save_upload in H. unfold_py. simpl in H.
    repeat (case_match; simplify_eq; simpl in * ); eauto. }
  unfold execute_pipeline. unfold_py. simpl.
  by rewrite Hx, Hy, !upload_path_truthy.
Qed.

End UploadOutcomes.

(** ** The registry *)

Lemma sort_keys_Ok_iff (order : list string) (steps : list Step) :
  (∃ keyed, sort_keys order steps = Ok keyed)
  ↔ ∀ x, x ∈ steps → step_id x ∈ order.
Proof.
  split.
  - intros [keyed Hk] x Hx.
    destruct (decide (step_id x ∈ order)) as [|Hno]; [done|].
    destruct (sort_keys_Raise order steps x Hx Hno) as [e He]. congruence.
  - intros Hall. eexists. apply sort_keys_Ok. by apply Forall_forall.
Qed.

(** X18: [update_pipeline_config] never raises and touches nothing but the
    order of the steps. On a manager that holds the three steps it returns
    [True] exactly when the requested ids are the known ids, whatever their
    order and repetitions; when it returns [False] the world is as it
    was. *)
Theorem config_update_outcome (w : World) (step_order : list string) :
  pipeline_steps (self w) ≡ₚ initial_steps →
  ∃ w' success,
    update_pipeline_config step_order w = (w', Ok success)
    ∧ (success = true ↔ ∀ id, id ∈ step_order ↔ id ∈ step_id <$> initial_steps)
    ∧ (success = false → w' = w)
    ∧ fs w' = fs w ∧ emitted w' = emitted w ∧ threads w' = threads w
    ∧ base_sheet_path (self w') = base_sheet_path (self w)
    ∧ new_data_sheet_path (self w') = new_data_sheet_path (self w)
    ∧ output_file_path (self w') = output_file_path (self w)
    ∧ pipeline_steps (self w') ≡ₚ pipeline_steps (self w).
Proof.
  intros Hinv. unfold update_pipeline_config, sort_pipeline_steps. unfold_py. simpl.
  destruct (forallb _ step_order) eqn:Hall.
  - rewrite forallb_forall in Hall.
    assert (Hknown : ∀ id, id ∈ step_order → id ∈ step_id <$> initial_steps).
    { intros id Hid. apply known_ids. apply list_elem_of_In, Hall in Hid.
      by apply bool_decide_eq_true_1 in Hid. }
    destruct (sort_keys step_order (pipeline_steps (self w))) as [keyed|e] eqn:Hk.
    + exists (set_self (set_steps (snd <$> stable_sort keyed)) w), true.
      split; [done|]. split.
      { split; [|done]. intros _ id. split; [apply Hknown|].
        intros Hid. change (id ∈ step_id <$> initial_steps) in Hid.
        apply list_elem_of_fmap in Hid as (x & -> & Hx). rewrite <- Hinv in Hx.
        revert x Hx. apply sort_keys_Ok_iff. eauto. }
      split; [done|]. simpl. repeat split; try done.
      rewrite stable_sort_Permutation. by rewrite (sort_keys_snd _ _ _ Hk).
    + exists w, false. split; [done|]. split; [|done].
      split; [done|]. intros Hiff. exfalso.
      assert (∃ keyed, sort_keys step_order (pipeline_steps (self w)) = Ok keyed)
        as [keyed Hk']; [|congruence].
      apply sort_keys_Ok_iff. intros x Hx. apply Hiff.
      change (step_id x ∈ step_id <$> initial_steps). rewrite <- Hinv.
      apply list_elem_of_fmap. eauto.
  - exists w, false. split; [done|]. split; [|done].
    split; [done|]. intros Hiff. exfalso.
    apply not_true_iff_false in Hall. apply Hall. apply forallb_forall.
    intros id Hid%list_elem_of_In. apply bool_decide_eq_true_2, known_ids.
    by apply Hiff.
Qed.

Lemma config_update_outcome_witness :
  ∃ w' success,
    update_pipeline_config ["excel_macro"; "excel_macro"] world_ready = (w', Ok success)
    ∧ (success = false → w' = world_ready).
Proof.
  destruct (config_update_outcome world_ready ["excel_macro"; "excel_macro"])
    as (w' & success & Hrun & _ & Hfalse & _).
  - reflexivity.
  - exists w', success. split; [exact Hrun | exact Hfalse].
Defined.

(** Steps that are the three steps and carry the same ids in the same
    places are the same steps. *)
Lemma steps_by_ids (l1 l2 : list Step) :
  l1 ≡ₚ initial_steps → l2 ≡ₚ initial_steps →
  step_id <$> l1 = step_id <$> l2 → l1 = l2.
Proof.
  intros H1 H2 Hids.
  assert (Hinj : ∀ x y, x ∈ initial_steps → y ∈ initial_steps →
            step_id x = step_id y → x = y).
  { intros x y Hx Hy. unfold initial_steps in *.
    rewrite !elem_of_cons, elem_of_nil in Hx, Hy.
    destruct Hx as [->|[->|[->|[]]]], Hy as [->|[->|[->|[]]]]; simpl;
      intros Heq; try done; discriminate. }
  apply list_eq. intros i.
  pose proof (f_equal (λ l, l !! i) Hids) as Hi. simpl in Hi.
  rewrite !list_lookup_fmap in Hi.
  destruct (l1 !! i) as [x|] eqn:E1, (l2 !! i) as [y|] eqn:E2; simpl in Hi;
    try done.
  f_equal. apply Hinj; [| |congruence].
  - rewrite <- H1. by eapply list_elem_of_lookup_2.
  - rewrite <- H2. by eapply list_elem_of_lookup_2.
Qed.

(** X19: a reorder to a permutation of the known ids forgets the order it
    finds: two managers that hold the three steps in any two orders hold
    them in the same order after the same request, and repeating the
    request changes nothing. *)
Theorem reorder_forgets_previous_order (w1 w2 : World) (step_order : list string) :
  pipeline_steps (self w1) ≡ₚ initial_steps →
  pipeline_steps (self w2) ≡ₚ initial_steps →
  step_order ≡ₚ step_id <$> initial_steps →
  pipeline_steps (self (update_pipeline_config step_order w1).1)
  = pipeline_steps (self (update_pipeline_config step_order w2).1)
  ∧ update_pipeline_config step_order (update_pipeline_config step_order w1).1
    = ((update_pipeline_config step_order w1).1, Ok true).
Proof.
  intros H1 H2 Horder.
  assert (Hnd : NoDup step_order).
  { rewrite Horder. apply (bool_decide_unpack _). by vm_compute. }
  assert (Hall : forallb (λ id, bool_decide (is_Some (step_functions !! id))) step_order
                 = true).
  { apply forallb_forall. intros id Hid%list_elem_of_In.
    rewrite Horder in Hid. by apply bool_decide_eq_true_2, known_ids. }
  assert (Hrun : ∀ w, pipeline_steps (self w) ≡ₚ initial_steps →
            ∃ steps, update_pipeline_config step_order w
                     = (set_self (set_steps steps) w, Ok true)
              ∧ steps ≡ₚ initial_steps ∧ step_id <$> steps = step_order).
  { intros w Hw.
    destruct (sorted_steps_follow_order step_order (pipeline_steps (self w)) Hnd)
      as (keyed & Hk & Hp & Hids); [by rewrite Hw, Horder|].
    exists (snd <$> stable_sort keyed). split; [|split; [by rewrite Hp|done]].
    unfold update_pipeline_config, sort_pipeline_steps. unfold_py. simpl.
    by rewrite Hall, Hk. }
  destruct (Hrun w1 H1) as (s1 & Hr1 & Hp1 & Hi1).
  destruct (Hrun w2 H2) as (s2 & Hr2 & Hp2 & Hi2).
  rewrite Hr1, Hr2. simpl. split.
  - apply steps_by_ids; [done..|congruence].
  - destruct (Hrun (set_self (set_steps s1) w1)) as (s3 & Hr3 & Hp3 & Hi3); [done|].
    rewrite Hr3. f_equal. unfold set_self, set_steps. simpl. do 2 f_equal.
    apply steps_by_ids; [done..|congruence].
Qed.

Lemma reorder_forgets_previous_order_witness :
  pipeline_steps (self (update_pipeline_config
     ["excel_macro"; "same_sheet_transfer"; "different_sheet_transfer"] world_ready).1)
  = pipeline_steps (self (update_pipeline_config
     ["excel_macro"; "same_sheet_transfer"; "different_sheet_transfer"]
     world_bad_source).1).
Proof.
  apply (reorder_forgets_previous_order world_ready world_bad_source
           ["excel_macro"; "same_sheet_transfer"; "different_sheet_transfer"]).
  - reflexivity.
  - symmetry. apply (Permutation_cons_append [macro_step; same_step] different_step).
  - apply (bool_decide_unpack _). vm_compute. reflexivity.
Defined.

(** ** Starting a run *)

(** X20: a start request does one of three things, and never touches the
    disk: it is refused, emitting one [step_error] and starting no thread;
    or the sort raises and the world is as it was; or it starts one thread,
    emitting nothing and leaving the paths and a permutation of the
    steps. *)
Theorem start_outcomes (w w' : World) (step_order : option (list string))
    (r : result unit) :
  execute_pipeline step_order w = (w', r) →
  fs w' = fs w
  ∧ ((r = Ok tt ∧ threads w' = threads w ∧ self w' = self w
      ∧ ∃ id error, emitted w' = emitted w ++ [step_error id error])
     ∨ (∃ e, r = Raise e ∧ w' = w)
     ∨ (r = Ok tt ∧ threads w' = S (threads w) ∧ emitted w' = emitted w
        ∧ pipeline_steps (self w') ≡ₚ pipeline_steps (self w)
        ∧ base_sheet_path (self w') = base_sheet_path (self w)
        ∧ new_data_sheet_path (self w') = new_data_sheet_path (self w)
        ∧ output_file_path (self w') = output_file_path (self w))).
Proof.
  unfold execute_pipeline, first_step_id, sort_pipeline_steps. unfold_py. simpl.
  intros H. destruct (negb _ || negb _).
  - destruct (pipeline_steps (self w)) as [|step rest] eqn:E; inversion H; subst.
    + split; [done|]. right. left. eauto.
    + split; [done|]. left. simpl. eauto 10.
  - destruct step_order as [[|id ids]|]; try (inversion H; subst; simpl;
      split; [done|]; right; right; by repeat split).
    destruct (sort_keys (id :: ids) (pipeline_steps (self w))) as [keyed|e] eqn:Hk;
      inversion H; subst; simpl.
    + split; [done|]. right. right. repeat split; try done.
      rewrite stable_sort_Permutation. by rewrite (sort_keys_snd _ _ _ Hk).
    + split; [done|]. right. left. eauto.
Qed.

Lemma start_outcomes_witness :
  fs (execute_pipeline (Some ["excel_macro"]) world_ready).1 = fs world_ready.
Proof.
  destruct (start_outcomes world_ready
              (execute_pipeline (Some ["excel_macro"]) world_ready).1
              (Some ["excel_macro"])
              (execute_pipeline (Some ["excel_macro"]) world_ready).2) as [Hfs _].
  - by destruct (execute_pipeline (Some ["excel_macro"]) world_ready).
  - exact Hfs.
Defined.

(** X21: with both paths set, a start request whose step order is not empty
    and omits the id of a step raises [ValueError]: no thread is started,
    nothing is emitted and the steps keep their order. *)
Theorem start_with_incomplete_order (w : World) (id : string) (ids : list string)
    (x : Step) :
  truthy (base_sheet_path (self w)) = true →
  truthy (new_data_sheet_path (self w)) = true →
  x ∈ pipeline_steps (self w) →
  step_id x ∉ id :: ids →
  ∃ error, execute_pipeline (Some (id :: ids)) w = (w, Raise (Exn ValueError error)).
Proof.
  intros Hb Hn Hx Hno.
  unfold execute_pipeline, sort_pipeline_steps. unfold_py. simpl.
  rewrite Hb, Hn. simpl.
  assert (∃ error, sort_keys (id :: ids) (pipeline_steps (self w))
                   = Raise (Exn ValueError error)) as [error ->]; [|eauto].
  clear Hb Hn. induction Hx as [x steps|x y steps _ IH].
  - cbn [sort_keys]. destruct (index (step_id x) (id :: ids)) eqn:Hi; [|eauto].
    apply index_lookup, list_elem_of_lookup_2 in Hi. done.
  - cbn [sort_keys]. destruct (index (step_id y) (id :: ids)); [|eauto].
    destruct (IH Hno) as [error ->]. eauto.
Qed.

Lemma start_with_incomplete_order_witness :
  ∃ error,
    execute_pipeline (Some ["excel_macro"; "same_sheet_transfer"]) world_ready
    = (world_ready, Raise (Exn ValueError error)).
Proof.
  apply (start_with_incomplete_order world_ready "excel_macro" ["same_sheet_transfer"]
           different_step).
  - reflexivity.
  - reflexivity.
  - apply list_elem_of_here.
  - rewrite !elem_of_cons, elem_of_nil. intros [H|[H|[]]]; discriminate H.
Defined.

(** X22: the configuration handler answers a message that carries steps
    with exactly one [pipeline_config_updated] event, whose flag is what
    [update_pipeline_config] returned, starts no thread and leaves the disk
    alone; a message without steps is ignored. *)
Theorem config_update_reply (w : World) (steps : list string) :
  handle_pipeline_config_update None w = (w, Ok tt)
  ∧ ∃ w1 success,
      update_pipeline_config steps w = (w1, Ok success)
      ∧ handle_pipeline_config_update (Some steps) w
        = ({| self := self w1; fs := fs w; emitted := emitted w
                                             ++ [pipeline_config_updated success];
              threads := threads w |}, Ok tt).
Proof.
  split; [done|].
  unfold handle_pipeline_config_update, update_pipeline_config, sort_pipeline_steps.
  unfold_py. simpl.
  destruct (forallb _ steps); [|by exists w, false].
  destruct (sort_keys steps (pipeline_steps (self w))) as [keyed|e];
    eexists _, _; (split; [reflexivity|]); reflexivity.
Qed.

(** ** The manager in every reachable world *)

Lemma sort_pipeline_steps_paths (order : list string) (w w' : World) (r : result unit) :
  sort_pipeline_steps order w = (w', r) →
  base_sheet_path (self w') = base_sheet_path (self w)
  ∧ new_data_sheet_path (self w') = new_data_sheet_path (self w)
  ∧ output_file_path (self w') = output_file_path (self w).
Proof.
  unfold sort_pipeline_steps. intros H.
  destruct (sort_keys order (pipeline_steps (self w))); by inversion H; subst.
Qed.

Lemma paths_ok_ext (m m' : ScriptManager) :
  base_sheet_path m' = base_sheet_path m →
  new_data_sheet_path m' = new_data_sheet_path m →
  output_file_path m' = output_file_path m →
  paths_ok m → paths_ok m'.
Proof. unfold paths_ok. by intros -> -> ->. Qed.

Lemma execute_pipeline_paths (order : option (list string)) (w w' : World)
    (r : result unit) :
  execute_pipeline order w = (w', r) → paths_ok (self w) → paths_ok (self w').
Proof.
  intros H. unfold execute_pipeline, first_step_id in H. unfold_py. simpl in H.
  destruct (negb _ || negb _).
  { destruct (pipeline_steps (self w)); by inversion H; subst. }
  destruct order as [[|id ids]|]; try (by inversion H; subst).
  destruct (sort_pipeline_steps (id :: ids) w) as [w1 [[]|e]] eqn:Hs;
    apply sort_pipeline_steps_paths in Hs as (? & ? & ?);
    inversion H; subst; simpl; by apply paths_ok_ext.
Qed.

Lemma update_pipeline_config_paths (order : list string) (w w' : World)
    (r : result bool) :
  update_pipeline_config order w = (w', r) → paths_ok (self w) → paths_ok (self w').
Proof.
  intros H. unfold update_pipeline_config in H. unfold_py. simpl in H.
  destruct (forallb _ order); [|by inversion H; subst].
  destruct (sort_pipeline_steps order w) as [w1 [[]|e]] eqn:Hs;
    apply sort_pipeline_steps_paths in Hs as (? & ? & ?);
    inversion H; subst; simpl; by apply paths_ok_ext.
Qed.

Lemma run_pipeline_self {lib : Openpyxl} (w w' : World) (r : result unit) :
  _run_pipeline w = (w', r) → self w' = self w.
Proof.
  intros H. unfold _run_pipeline in H. unfold_py. simpl in H.
  destruct (run_steps _ w) as [w1 r1] eqn:Hrun.
  apply run_steps_frame in Hrun as (Hs & _).
  destruct r1 as [[]|e]; [|by inversion H; subst..].
  unfold copy_final_result in H. unfold_py. simpl in H.
  repeat (case_match; simplify_eq; simpl in * ); done.
Qed.

Lemma update_file_paths_self (now : datetime) (base new : string) (w w' : World)
    (r : result unit) :
  update_file_paths now base new w = (w', r) →
  pipeline_steps (self w') = pipeline_steps (self w)
  ∧ (paths_ok (self w) → paths_ok (self w')).
Proof.
  intros H. unfold update_file_paths in H. unfold_py. simpl in H.
  repeat (case_match; simplify_eq; simpl in * ); (split; [done|]); try done;
    intros _; unfold paths_ok; simpl;
    (split; [done|]); apply output_path_not_base.
Qed.

Section ReachableInvariant.

Variable secure_filename : string → string.

Lemma upload_files_self (now : datetime) (form : upload_form) (w w' : World)
    (r : result response) :
  upload_files secure_filename now form w = (w', r) →
  pipeline_steps (self w') = pipeline_steps (self w)
  ∧ (paths_ok (self w) → paths_ok (self w')).
Proof.
  intros H. unfold upload_files, save_upload in H. unfold_py. simpl in H.
  destruct (baseSheet form) as [base_sheet|], (newDataSheet form) as [new_data_sheet|];
    try (by inversion H; subst).
  destruct (_ || _); [by inversion H; subst|].
  destruct (negb _); [by inversion H; subst|].
  destruct (bool_decide _); [by inversion H; subst|]. simpl in H.
  destruct (bool_decide _); [by inversion H; subst|]. simpl in H.
  destruct (update_file_paths _ _ _ _) as [w1 r1] eqn:Hu.
  apply update_file_paths_self in Hu as [Hsteps Hpaths]. simpl in *.
  destruct r1; inversion H; subst; done.
Qed.

(** X23: in every world the application can reach, the manager holds the
    three steps, each once, in some order, and its stored paths are either
    all absent or all present with the output path derived from the base
    path and different from it. *)
Theorem reachable_invariant {lib : Openpyxl} (w : World) :
  reachable secure_filename w →
  pipeline_steps (self w) ≡ₚ initial_steps ∧ paths_ok (self w).
Proof.
  induction 1 as [disk|now form w _ [IHs IHp]|steps w _ [IHs IHp]
                 |steps w _ [IHs IHp]|w _ [IHs IHp]|f w _ IH]; [done| | | | |done].
  - destruct (upload_files secure_filename now form w) as [w' r] eqn:E.
    apply upload_files_self in E as [Hs Hp]. simpl. rewrite Hs. auto.
  - destruct (handle_pipeline_start steps w) as [w' r] eqn:E. simpl.
    assert (∃ order, execute_pipeline order w = (w', r)) as [order Hrun].
    { destruct steps; eauto. }
    split; [|by eapply execute_pipeline_paths].
    destruct (steps_preserved w w') as (_ & Hstart & _). by rewrite (Hstart _ _ Hrun).
  - destruct steps as [steps|]; [|done].
    unfold handle_pipeline_config_update. unfold_py.
    destruct (update_pipeline_config steps w) as [w' [b|e]] eqn:E; simpl.
    + destruct (steps_preserved w w') as (_ & _ & Hcfg & _).
      split; [by rewrite (Hcfg _ _ E)|by eapply update_pipeline_config_paths].
    + destruct (steps_preserved w w') as (_ & _ & Hcfg & _).
      split; [by rewrite (Hcfg _ _ E)|by eapply update_pipeline_config_paths].
  - destruct (_run_pipeline w) as [w' r] eqn:E. simpl.
    apply run_pipeline_self in E. by rewrite E.
Qed.

End ReachableInvariant.

Lemma reachable_invariant_witness :
  pipeline_steps (self (handle_pipeline_config_update
     (Some ["excel_macro"; "same_sheet_transfer"; "different_sheet_transfer"])
     (upload_files secure_filename_ascii (DateTime 2024 3 7 9 5 59) first_form
        world_idle).1).1)
  ≡ₚ initial_steps.
Proof.
  apply (reachable_invariant secure_filename_ascii).
  apply reachable_config_update, reachable_upload.
  apply (reachable_start secure_filename_ascii {| files := ∅; unwritable := ∅ |}).
Defined.

(** X24: the sheet [_execute_different_sheet_transfer] adds is not made the
    active one: the active sheet of the workbook it saves is the sheet that
    was active, under its title and with the values it had, so an append
    that follows writes there; the new sheet is the last one. No cell of the
    new sheet is given a [datetime]: each went through [strftime]. In the
    file the active sheet holds its values as the library writes them. *)
Theorem new_sheet_is_not_active {lib : Openpyxl} (w : World) (base new_data : string)
    (source_workbook destination_workbook : Workbook) (src dst : Worksheet) :
  base_sheet_path (self w) = Some base →
  new_data_sheet_path (self w) = Some new_data →
  supported_format base = true →
  supported_format new_data = true →
  files (fs w) !! new_data = Some (Xlsx source_workbook) →
  files (fs w) !! base = Some (Xlsx destination_workbook) →
  active source_workbook = Some src →
  active destination_workbook = Some dst →
  base ∉ unwritable (fs w) →
  ∃ w' wb' active_sheet new_sheet,
    _execute_different_sheet_transfer w = (w', Ok tt)
    ∧ files (fs w') !! base = Some (Xlsx (stored wb'))
    ∧ active wb' = Some active_sheet
    ∧ title active_sheet = title dst
    ∧ (∀ r c, cell_value active_sheet r c = cell_value dst r c)
    ∧ last (_sheets wb') = Some new_sheet
    ∧ length (_sheets wb') = S (length (_sheets destination_workbook))
    ∧ (∀ r c d, 1 ≤ r → 1 ≤ c → cell_value new_sheet r c ≠ VDateTime d)
    ∧ active (stored wb') = Some (stored_sheet active_sheet)
    ∧ title (stored_sheet active_sheet) = title dst
    ∧ (∀ r c, cell_value (stored_sheet active_sheet) r c = as_written (cell_value dst r c)).
Proof.
  intros Hb Hn Hfb Hfn Hs Hd Has Had Hw.
  set (new_sheet := append_all_rows (bind_cells src)
         {| title := avoid_duplicate_name (sheetnames destination_workbook) NEW_SHEET_NAME;
            _cells := ∅; _styled := ∅; _current_row := 0 |}).
  set (wb' := {| _sheets := (bind_cells <$> _sheets destination_workbook) ++ [new_sheet];
                 _active_sheet_index := _active_sheet_index destination_workbook |}).
  assert (Hact : active wb' = Some (bind_cells dst)).
  { unfold active in *. simpl. rewrite lookup_app_l.
    - by rewrite list_lookup_fmap, Had.
    - rewrite length_fmap. by eapply lookup_lt_Some. }
  exists (set_fs (write_file base (Xlsx (stored wb'))) w), wb', (bind_cells dst), new_sheet.
  split; [by eapply different_sheet_transfer_saves|].
  split; [simpl; by rewrite lookup_insert_eq|].
  split; [exact Hact|].
  split; [done|]. split; [done|].
  split; [simpl; by rewrite last_snoc|].
  split; [simpl; rewrite length_app, length_fmap; simpl; lia|].
  split.
  { intros r c d Hr Hc. unfold new_sheet. rewrite append_all_rows_cell by done.
    by destruct (cell_value src r c). }
  split; [by rewrite active_stored, Hact|].
  split; [done|].
  intros r c. by rewrite cell_value_stored_sheet.
Qed.

Lemma new_sheet_is_not_active_witness :
  ∃ w' wb' active_sheet new_sheet,
    _execute_different_sheet_transfer world_ready = (w', Ok tt)
    ∧ files (fs w') !! "uploads/base.xlsx" = Some (Xlsx (stored wb'))
    ∧ active wb' = Some active_sheet
    ∧ title active_sheet = "Sheet"
    ∧ last (_sheets wb') = Some new_sheet.
Proof.
  destruct (new_sheet_is_not_active world_ready "uploads/base.xlsx" "uploads/new.xlsx"
              new_book base_book (sheet_at 0 new_book) (sheet_at 0 base_book))
    as (w' & wb' & a & n & Hrun & Hf & Ha & Ht & _ & Hl & _).
  - reflexivity.
  - reflexivity.
  - vm_compute. reflexivity.
  - vm_compute. reflexivity.
  - vm_compute. reflexivity.
  - vm_compute. reflexivity.
  - reflexivity.
  - reflexivity.
  - apply not_elem_of_empty.
  - exists w', wb', a, n. repeat split; assumption.
Defined.


Lemma append_changes_active_sheet_only_witness :
  ∃ w' wb',
    _execute_same_sheet_transfer world_ready = (w', Ok tt)
    ∧ files (fs w') !! "uploads/base.xlsx" = Some (Xlsx wb')
    ∧ sheetnames wb' = ["Sheet"].
Proof.
  destruct (append_changes_active_sheet_only world_ready "uploads/base.xlsx"
              "uploads/new.xlsx" new_book base_book
              (sheet_at 0 new_book) (sheet_at 0 base_book))
    as (w' & wb' & Hrun & Hf & Hnames & _).
  - reflexivity.
  - reflexivity.
  - vm_compute. reflexivity.
  - vm_compute. reflexivity.
  - vm_compute. reflexivity.
  - vm_compute. reflexivity.
  - reflexivity.
  - reflexivity.
  - apply not_elem_of_empty.
  - exists w', wb'. split; [exact Hrun|]. split; [exact Hf | exact Hnames].
Defined.


Lemma upload_refused_witness :
  ∃ error,
    upload_files secure_filename_ascii (DateTime 2024 3 7 9 5 59)
      form_without_new_data world_idle
    = (world_idle, Ok (Error 400 error)).
Proof.
  apply (upload_refused secure_filename_ascii (DateTime 2024 3 7 9 5 59)
           form_without_new_data world_idle).
  exact I.
Defined.

Lemma upload_saved_then_backup_fails_witness :
  ∃ w' error,
    upload_files secure_filename_ascii (DateTime 2024 3 7 9 5 59) replacing_form
      world_locked_backup
    = (w', Ok (Error 500 error))
    ∧ self w' = self world_locked_backup
    ∧ files (fs w') !! "uploads/base.xlsx" = Some (Xlsx blank_cell_base).
Proof.
  destruct (upload_saved_then_backup_fails secure_filename_ascii
              (DateTime 2024 3 7 9 5 59) replacing_form
              {| filename := "base.xlsx"; stream := Xlsx blank_cell_base |}
              {| filename := "new.xlsx"; stream := Xlsx new_book |}
              world_locked_backup)
    as (w' & error & Hrun & Hself & Hfiles).
  - reflexivity.
  - reflexivity.
  - discriminate.
  - discriminate.
  - reflexivity.
  - reflexivity.
  - vm_compute. discriminate.
  - vm_compute. discriminate.
  - vm_compute. reflexivity.
  - exists w', error. split; [exact Hrun|]. split; [exact Hself|].
    rewrite Hfiles. vm_compute. reflexivity.
Defined.

Lemma start_after_upload_witness :
  threads (execute_pipeline None
             (upload_files secure_filename_ascii (DateTime 2024 3 7 9 5 59)
                first_form world_idle).1).1
  = 1.
Proof.
  rewrite (start_after_upload secure_filename_ascii (DateTime 2024 3 7 9 5 59)
             first_form world_idle
             (upload_files secure_filename_ascii (DateTime 2024 3 7 9 5 59)
                first_form world_idle).1
             "base.xlsx" "new.xlsx").
  - reflexivity.
  - vm_compute. reflexivity.
Defined.
